(** * Lockers dashboard (app.py): filter engine, loader, sidebar and timeline

    A shallow embedding of the data pipeline of [app.py]: the table read
    from the CSV file is a list of rows, the Dash callbacks are functions
    of their inputs, and an error raised by Python is a value of an error
    monad.  Presentation (styles, layout, colours) is left out, and so is
    the map figure, whose centre is a floating-point mean. *)

From Stdlib Require Import List String Ascii Bool ZArith QArith Lia.
From Stdlib Require Import Sorting.Sorted Sorting.Permutation.
Import ListNotations.

Local Open Scope string_scope.
Local Open Scope list_scope.

(** ** The table *)

Module Frame.

(** A cell of a text column as [pd.read_csv] yields it: a [str], or [NaN]
    for an empty field. *)
Inductive cell : Type :=
| NaN
| Str (s : string).

(** A cell of a numeric column: a number, or [None] for [NaN]. *)
Definition number : Type := option Q.

(** The text columns read by name in [app.py] with [dff[col]]. *)
Inductive column : Type :=
| Type_
| Location_Type
| Borough
| Locker_Size
| Status
| Address.

(** The four date columns, read with [r.get(col)]. *)
Inductive date_column : Type :=
| Delivery_Date
| Receive_Date
| Withdraw_Date
| Expire_Date.

(** One row of the CSV file.  ["Locker Name"] is optional in the file and
    the date columns are read with [r.get], which yields Python's [None]
    for a column that is not there: both are [option]s. *)
Record Row : Type := mkRow {
  row_Type : cell;
  row_Location_Type : cell;
  row_Borough : cell;
  row_Locker_Size : cell;
  row_Status : cell;
  row_Latitude : number;
  row_longitude : number;
  row_Address : cell;
  row_Locker_Name : option cell;
  row_Delivery_Date : option cell;
  row_Receive_Date : option cell;
  row_Withdraw_Date : option cell;
  row_Expire_Date : option cell
}.

Definition DataFrame : Type := list Row.

(** [r[col]] *)
Definition getitem (r : Row) (col : column) : cell :=
  match col with
  | Type_ => row_Type r
  | Location_Type => row_Location_Type r
  | Borough => row_Borough r
  | Locker_Size => row_Locker_Size r
  | Status => row_Status r
  | Address => row_Address r
  end.

(** [r.get(col)] on a date column *)
Definition get (r : Row) (col : date_column) : option cell :=
  match col with
  | Delivery_Date => row_Delivery_Date r
  | Receive_Date => row_Receive_Date r
  | Withdraw_Date => row_Withdraw_Date r
  | Expire_Date => row_Expire_Date r
  end.

(** A value a callback receives from a dropdown or a click payload: a
    string, or Python's [None]. *)
Definition pyvalue : Type := option string.

Definition pyvalue_eqb (a b : pyvalue) : bool :=
  match a, b with
  | None, None => true
  | Some x, Some y => String.eqb x y
  | _, _ => false
  end.

(** One element of the comparison [dff[col] == v]: [NaN] equals nothing,
    a string equals the same string only, nothing equals [None]. *)
Definition cell_eqb (c : cell) (v : pyvalue) : bool :=
  match c, v with
  | Str s, Some x => String.eqb s x
  | _, _ => false
  end.

(** [dff[dff[col] == v]]: the rows whose mask is true, in order. *)
Definition select_eq (col : column) (v : pyvalue) (dff : DataFrame) : DataFrame :=
  filter (fun r => cell_eqb (getitem r col) v) dff.

End Frame.

Import Frame.

(** ** Filter engine *)

Definition filter_columns : list column :=
  [Type_; Location_Type; Borough; Locker_Size; Status].

(** [v not in [None, "All"]] *)
Definition not_in_wildcards (v : pyvalue) : bool :=
  negb (existsb (pyvalue_eqb v) [None; Some "All"]).

(** The loop of [filter_df] over [zip(filter_columns, args)]. *)
Fixpoint filter_loop (pairs : list (column * pyvalue)) (dff : DataFrame) : DataFrame :=
  match pairs with
  | [] => dff
  | (col, v) :: rest =>
      filter_loop rest (if not_in_wildcards v then select_eq col v dff else dff)
  end.

(** [filter_df(args)], with the module-level table [df] made explicit. *)
Definition filter_df (df : DataFrame) (args : list pyvalue) : DataFrame :=
  filter_loop (combine filter_columns args) df.

(** [clear_all(n_clicks)] *)
Definition clear_all (n_clicks : option Z) : list pyvalue :=
  repeat (Some "All") (List.length filter_columns).

(** The predicate the specification gives for one column: a wildcard (or
    omitted) selection holds of every row, any other selection holds of
    the rows whose cell is that very string. *)
Definition satisfies (r : Row) (col : column) (v : pyvalue) : Prop :=
  match v with
  | None => True
  | Some x => x = "All" \/ getitem r col = Str x
  end.

Definition satisfiesb (r : Row) (cv : column * pyvalue) : bool :=
  if not_in_wildcards (snd cv) then cell_eqb (getitem r (fst cv)) (snd cv) else true.

(** ** Dataset loader: the derived column ["Bubble Size"] *)

Module Regex.

(** The pattern [([SMLX]+)]: one group holding a character class repeated
    greedily, one or more times. *)
Definition in_class (cls : list ascii) (c : ascii) : bool :=
  existsb (Ascii.eqb c) cls.

(** The longest run of class characters at the head of [s]. *)
Fixpoint greedy (cls : list ascii) (s : string) : string :=
  match s with
  | EmptyString => EmptyString
  | String c t => if in_class cls c then String c (greedy cls t) else EmptyString
  end.

(** [re.match] of [cls+] at the head of [s]: the text of the group. *)
Definition match_plus (cls : list ascii) (s : string) : option string :=
  match greedy cls s with
  | EmptyString => None
  | m => Some m
  end.

(** [re.search] of [(cls+)]: the match at the leftmost position that has
    one; [None] when no position has. *)
Fixpoint search (cls : list ascii) (s : string) : option string :=
  match match_plus cls s with
  | Some m => Some m
  | None =>
      match s with
      | EmptyString => None
      | String _ t => search cls t
      end
  end.

(** [c] is not in the class. *)
Definition outside (cls : list ascii) (c : ascii) : bool :=
  negb (in_class cls c).

(** Every character of [s] passes [f]. *)
Fixpoint all_chars (f : ascii -> bool) (s : string) : bool :=
  match s with
  | EmptyString => true
  | String c t => f c && all_chars f t
  end.

(** [s] starts with a character of the class. *)
Definition starts_in_class (cls : list ascii) (s : string) : bool :=
  match s with
  | EmptyString => false
  | String c _ => in_class cls c
  end.

End Regex.

Definition size_map : list (string * Z) :=
  [("S", 14%Z); ("M", 22%Z); ("L", 32%Z); ("XL", 42%Z)].

(** [d.get(k)] on a dict written as its items. *)
Fixpoint dict_get {V : Type} (d : list (string * V)) (k : string) : option V :=
  match d with
  | [] => None
  | (k', v) :: rest => if String.eqb k' k then Some v else dict_get rest k
  end.

(** [.astype(str)] on one cell: [NaN] prints as ["nan"]. *)
Definition astype_str (c : cell) : string :=
  match c with
  | NaN => "nan"
  | Str s => s
  end.

Definition SMLX : list ascii := ["S"; "M"; "L"; "X"]%char.

(** [.str.extract(r'([SMLX]+)')[0]] on one string: the group, or [None]
    for the [NaN] of a string without a match. *)
Definition str_extract (s : string) : option string :=
  Regex.search SMLX s.

(** [.map(size_map)] on one value: [NaN] stays [NaN], a key maps to its
    value, anything else to [NaN]. *)
Definition map_size_map (k : option string) : option Z :=
  match k with
  | None => None
  | Some key => dict_get size_map key
  end.

(** [.fillna(10)] on one value. *)
Definition fillna (default : Z) (v : option Z) : Z :=
  match v with
  | None => default
  | Some z => z
  end.

(** One entry of [df["Bubble Size"]], from the row's ["Locker Size"]. *)
Definition bubble_size (locker_size : cell) : Z :=
  fillna 10 (map_size_map (str_extract (astype_str locker_size))).

(** ** Timeline renderer *)

Module Py.

(** Characters are code points below 256.  [str.isspace] on them. *)
Definition isspace (c : ascii) : bool :=
  let n := nat_of_ascii c in
  ((9 <=? n) && (n <=? 13) || (28 <=? n) && (n <=? 32) || (n =? 133) || (n =? 160))%nat.

Fixpoint lstrip (s : string) : string :=
  match s with
  | EmptyString => EmptyString
  | String c t => if isspace c then lstrip t else s
  end.

Fixpoint rstrip (s : string) : string :=
  match s with
  | EmptyString => EmptyString
  | String c t =>
      match rstrip t with
      | EmptyString => if isspace c then EmptyString else String c EmptyString
      | t' => String c t'
      end
  end.

(** [s.strip()] *)
Definition strip (s : string) : string := rstrip (lstrip s).

Definition lower_char (c : ascii) : ascii :=
  let n := nat_of_ascii c in
  if ((65 <=? n) && (n <=? 90) || (192 <=? n) && (n <=? 222) && negb (n =? 215))%nat
  then ascii_of_nat (n + 32)
  else c.

(** [s.lower()] *)
Fixpoint lower (s : string) : string :=
  match s with
  | EmptyString => EmptyString
  | String c t => String (lower_char c) (lower t)
  end.

(** Truth value of a string or [None]. *)
Definition truthy (v : pyvalue) : bool :=
  match v with
  | None => false
  | Some s => negb (String.eqb s "")
  end.

(** [a or b] *)
Definition or_ (a b : pyvalue) : pyvalue :=
  if truthy a then a else b.

(** What a raised exception carries. *)
Inductive exn : Type :=
| DateParseError (text : string)
| TypeError (message : string).

(** A computation that returns or raises. *)
Inductive result (A : Type) : Type :=
| Return (a : A)
| Raise (e : exn).

Arguments Return {A} a.
Arguments Raise {A} e.

Definition bind {A B : Type} (m : result A) (k : A -> result B) : result B :=
  match m with
  | Return a => k a
  | Raise e => Raise e
  end.

End Py.

Import Py.

Notation "x <- m ;; k" := (bind m (fun x => k))
  (at level 61, m at next level, right associativity).

(** ** [list.sort]

    CPython's [list.sort] (listobject.c, as of 3.11) on a list of fewer
    than 64 items, as [timeline_data] with its four items at most always
    is: the run that starts the list is found ([count_run]; a strictly
    descending run is reversed), then each later item is placed in the
    sorted part by binary search ([binarysort]).  Only [<] is used, and
    an error of [<] ends the sort.  On keys that [<] orders the result
    is that of any stable sort; on keys such as [NaT] it is what these
    steps leave. *)

Module ListSort.

Section Sort.

Context {A : Type}.

(** [x < y] on two items, that is on their keys. *)
Variable lt : A -> A -> result bool.

(** The rest of the run after [prev]: the items are taken as long as
    [x < prev] is as [descending] says. *)
Fixpoint take_run (descending : bool) (prev : A) (l : list A)
  : result (list A * list A) :=
  match l with
  | [] => Return ([], [])
  | x :: xs =>
      smaller <- lt x prev ;;
      if Bool.eqb smaller descending
      then p <- take_run descending x xs ;; Return (x :: fst p, snd p)
      else Return ([], l)
  end.

(** [count_run]: the run, made ascending, and the items after it. *)
Definition count_run (l : list A) : result (list A * list A) :=
  match l with
  | a :: b :: rest =>
      descending <- lt b a ;;
      p <- take_run descending b rest ;;
      Return (if descending then rev (a :: b :: fst p) else a :: b :: fst p, snd p)
  | _ => Return (l, [])
  end.

(** The binary search of [binarysort] for the place of [pivot] in [a],
    between the indices [l] and [r]. *)
Fixpoint bisect (fuel : nat) (pivot : A) (a : list A) (l r : nat) : result nat :=
  match fuel with
  | O => Return l
  | S fuel' =>
      if (l <? r)%nat
      then let p := (l + (r - l) / 2)%nat in
           smaller <- lt pivot (nth p a pivot) ;;
           if smaller
           then bisect fuel' pivot a l p
           else bisect fuel' pivot a (S p) r
      else Return l
  end.

(** [binarysort]: each item of [rest] in turn is put in its place in the
    sorted part. *)
Fixpoint binarysort (sorted_part rest : list A) : result (list A) :=
  match rest with
  | [] => Return sorted_part
  | pivot :: rest' =>
      l <- bisect (List.length sorted_part) pivot sorted_part 0 (List.length sorted_part) ;;
      binarysort (firstn l sorted_part ++ pivot :: skipn l sorted_part) rest'
  end.

Definition sort (l : list A) : result (list A) :=
  p <- count_run l ;;
  binarysort (fst p) (snd p).

End Sort.

End ListSort.

(** A [pd.Timestamp]: [NaT], a tz-naive time as the nanoseconds of its
    wall clock since 1970-01-01, or a tz-aware time as its nanoseconds
    since the epoch in UTC. *)
Inductive Timestamp : Type :=
| NaT
| Naive (wall : Z)
| Aware (utc : Z).

(** [a < b] on two [pd.Timestamp]s: false when one of them is [NaT], an
    error between a tz-naive and a tz-aware one. *)
Definition timestamp_lt (a b : Timestamp) : result bool :=
  match a, b with
  | NaT, _ => Return false
  | _, NaT => Return false
  | Naive x, Naive y => Return (x <? y)%Z
  | Aware x, Aware y => Return (x <? y)%Z
  | _, _ => Raise (TypeError "Cannot compare tz-naive and tz-aware timestamps")
  end.

(** A point of the click payload: [point.get(key)] is [None] for a key
    that is not there. *)
Record Point : Type := mkPoint {
  hovertext : pyvalue;
  point_Address : pyvalue
}.

(** The click payload [clickData]; [clickData.get("points")] is [None]
    for a payload without the key. *)
Record ClickData : Type := mkClickData {
  points : option (list Point)
}.

(** The data frame [df_tl] given to [px.scatter]. *)
Record timeline_fig : Type := mkTimelineFig {
  Step : list string;
  Date : list Timestamp
}.

(** The components a callback returns, without their styles. *)
#[local] Unset Elimination Schemes.
Inductive html : Type :=
| Text (s : string)
| H4 (title : cell)
| Graph (figure : timeline_fig)
| Div (children : list html).
#[local] Set Elimination Schemes.

Definition timeline_points : list (string * date_column) :=
  [("Delivery", Delivery_Date);
   ("Receive", Receive_Date);
   ("Withdraw", Withdraw_Date);
   ("Expire", Expire_Date)].

(** [pd.notnull(dt)] *)
Definition notnull (dt : option cell) : bool :=
  match dt with
  | Some (Str _) => true
  | _ => false
  end.

(** [str(dt)] *)
Definition str (dt : option cell) : string :=
  match dt with
  | None => "None"
  | Some NaN => "nan"
  | Some (Str s) => s
  end.

(** The guard of the loop over [timeline_points]:
    [pd.notnull(dt) and str(dt).strip() and str(dt).lower() != "nan"]. *)
Definition guard (dt : option cell) : bool :=
  notnull dt
  && negb (String.eqb (strip (str dt)) "")
  && negb (String.eqb (lower (str dt)) "nan").

(** The comparison of two items under [key=lambda x: x[1]]. *)
Definition date_lt (x y : string * Timestamp) : result bool :=
  timestamp_lt (snd x) (snd y).

(** [timeline_data.sort(key=lambda x: x[1])] *)
Definition sort_by_date (l : list (string * Timestamp)) : result (list (string * Timestamp)) :=
  ListSort.sort date_lt l.

(** [r["Locker Name"] if "Locker Name" in r and pd.notnull(r["Locker Name"])
    else r["Address"]] *)
Definition locker_title (r : Row) : cell :=
  match row_Locker_Name r with
  | Some (Str name) => Str name
  | _ => row_Address r
  end.

Definition click_prompt : html :=
  Div [Div [Text "Click a marker to see the timeline!"]].

Definition no_data : html :=
  Div [Text "No data for this locker."].

Definition no_timeline (r : Row) : html :=
  Div [H4 (locker_title r); Div [Text "No timeline available for this locker."]].

Definition timeline_chart (r : Row) (timeline_data : list (string * Timestamp)) : html :=
  Div [H4 (locker_title r);
       Graph {| Step := map fst timeline_data; Date := map snd timeline_data |}].

Section Timeline.

(** [pd.to_datetime] on a string: the timestamp, or [None] where pandas
    raises because the text is not a date. *)
Variable to_datetime : string -> option Timestamp.

Definition parse (dt : option cell) : result Timestamp :=
  match to_datetime (str dt) with
  | Some t => Return t
  | None => Raise (DateParseError (str dt))
  end.

(** The loop [for label, col in timeline_points] on the row [r], from the
    [timeline_data] built so far. *)
Fixpoint collect (pts : list (string * date_column)) (r : Row)
    (timeline_data : list (string * Timestamp)) : result (list (string * Timestamp)) :=
  match pts with
  | [] => Return timeline_data
  | (label, col) :: rest =>
      let dt := get r col in
      if guard dt
      then t <- parse dt ;; collect rest r (timeline_data ++ [(label, t)])
      else collect rest r timeline_data
  end.

(** The callback [show_timeline_chart], called with the click payload and
    the five dropdown values. *)
Definition show_timeline_chart (df : DataFrame) (clickData : option ClickData)
    (filter_values : list pyvalue) : result html :=
  let dff := filter_df df filter_values in
  match clickData with
  | None => Return click_prompt
  | Some cd =>
      match points cd with
      | None | Some [] => Return click_prompt
      | Some (point :: _) =>
          let addr := or_ (hovertext point) (point_Address point) in
          let row := select_eq Address addr dff in
          match row with
          | [] => Return no_data
          | r :: _ =>
              timeline_data <- collect timeline_points r [] ;;
              if (List.length timeline_data <? 2)%nat
              then Return (no_timeline r)
              else sorted_data <- sort_by_date timeline_data ;;
                   Return (timeline_chart r sorted_data)
          end
      end
  end.

End Timeline.

(** ** The events of a row *)

(** The instant of a timestamp within its kind. *)
Definition instant (t : Timestamp) : Z :=
  match t with
  | NaT => 0%Z
  | Naive wall => wall
  | Aware utc => utc
  end.

Definition tz_naive (t : Timestamp) : Prop :=
  match t with
  | Naive _ => True
  | _ => False
  end.

Definition tz_aware (t : Timestamp) : Prop :=
  match t with
  | Aware _ => True
  | _ => False
  end.

(** Timestamps that [<] orders: none is [NaT], and they are all tz-naive
    or all tz-aware. *)
Definition comparable (dates : list Timestamp) : Prop :=
  Forall tz_naive dates \/ Forall tz_aware dates.

(** [a] is not later than [b], both being times of the same kind. *)
Definition timestamp_le (a b : Timestamp) : Prop :=
  match a, b with
  | Naive x, Naive y => (x <= y)%Z
  | Aware x, Aware y => (x <= y)%Z
  | _, _ => False
  end.

(** Ascending on the date. *)
Definition date_le (a b : string * Timestamp) : Prop :=
  timestamp_le (snd a) (snd b).

(** The key of an item of [timeline_data] as an integer. *)
Definition date_key (x : string * Timestamp) : Z := instant (snd x).

(** Orders and tests on the items of a list through an integer key. *)
Definition key_le {A : Type} (key : A -> Z) (x y : A) : Prop := (key x <= key y)%Z.

Definition key_gt {A : Type} (key : A -> Z) (x y : A) : Prop := (key y < key x)%Z.

Definition key_is {A : Type} (key : A -> Z) (t : Z) (x : A) : bool := (key x =? t)%Z.

(** Comparing two items of [l] raises [e]. *)
Definition raised_by {A : Type} (lt : A -> A -> result bool) (l : list A) (e : exn) : Prop :=
  exists x y, In x l /\ In y l /\ lt x y = Raise e.

(** The two items are both tz-naive or both not. *)
Definition same_kind (x y : string * Timestamp) : Prop :=
  tz_naive (snd x) <-> tz_naive (snd y).

Section Events.

Variable to_datetime : string -> option Timestamp.

(** The labels and columns of [pts] whose date in [r] passes the guard. *)
Definition present (r : Row) (pts : list (string * date_column))
  : list (string * date_column) :=
  filter (fun p => guard (get r (snd p))) pts.

(** Every date of [r] that passes the guard is a date for the parser. *)
Definition parseable (r : Row) (pts : list (string * date_column)) : Prop :=
  forall label col,
    In (label, col) pts ->
    guard (get r col) = true ->
    to_datetime (str (get r col)) <> None.

(** The labelled timestamps of [r], in the order of [pts]: one for each
    date that passes the guard and that the parser reads. *)
Definition events (r : Row) (pts : list (string * date_column))
  : list (string * Timestamp) :=
  flat_map
    (fun p =>
       if guard (get r (snd p))
       then match to_datetime (str (get r (snd p))) with
            | Some t => [(fst p, t)]
            | None => []
            end
       else [])
    pts.

End Events.

(** ** A date parser to run the renderer on

    [pd.to_datetime] is pandas' own; the renderer is stated over any
    parser.  [Iso.to_datetime] is its fragment for calendar dates written
    [YYYY-MM-DD]; like pandas it has no value for a text that is not a
    date. *)

Module Iso.

Definition digit (c : ascii) : option Z :=
  let n := Z.of_nat (nat_of_ascii c) in
  if ((48 <=? n) && (n <=? 57))%Z then Some (n - 48)%Z else None.

Definition number2 (a b : ascii) : option Z :=
  match digit a, digit b with
  | Some x, Some y => Some (10 * x + y)%Z
  | _, _ => None
  end.

Definition number4 (a b c d : ascii) : option Z :=
  match number2 a b, number2 c d with
  | Some x, Some y => Some (100 * x + y)%Z
  | _, _ => None
  end.

Definition is_leap (y : Z) : bool :=
  ((y mod 4 =? 0) && negb (y mod 100 =? 0) || (y mod 400 =? 0))%Z.

Definition days_in_month (y m : Z) : Z :=
  if (m =? 2)%Z then (if is_leap y then 29 else 28)%Z
  else if ((m =? 4) || (m =? 6) || (m =? 9) || (m =? 11))%Z then 30%Z
  else 31%Z.

(** Days from 1970-01-01 to the given civil date. *)
Definition days_from_civil (y m d : Z) : Z :=
  let y' := (if m <=? 2 then y - 1 else y)%Z in
  let era := (y' / 400)%Z in
  let yoe := (y' - era * 400)%Z in
  let mp := (if m >? 2 then m - 3 else m + 9)%Z in
  let doy := ((153 * mp + 2) / 5 + d - 1)%Z in
  let doe := (yoe * 365 + yoe / 4 - yoe / 100 + doy)%Z in
  (era * 146097 + doe - 719468)%Z.

Definition nanoseconds_per_day : Z := 86400000000000.

(** The nanoseconds from 1970-01-01 to the start of the day written
    [YYYY-MM-DD]. *)
Definition date_of (y1 y2 y3 y4 m1 m2 d1 d2 : ascii) : option Z :=
  match number4 y1 y2 y3 y4, number2 m1 m2, number2 d1 d2 with
  | Some y, Some m, Some d =>
      if ((1 <=? m) && (m <=? 12) && (1 <=? d) && (d <=? days_in_month y m))%Z
      then Some (days_from_civil y m d * nanoseconds_per_day)%Z
      else None
  | _, _, _ => None
  end.

(** The nanoseconds from midnight to the time written [hh:mm:ss]. *)
Definition time_of (h1 h2 m1 m2 s1 s2 : ascii) : option Z :=
  match number2 h1 h2, number2 m1 m2, number2 s1 s2 with
  | Some h, Some m, Some sec =>
      if ((h <=? 23) && (m <=? 59) && (sec <=? 59))%Z
      then Some (((h * 60 + m) * 60 + sec) * 1000000000)%Z
      else None
  | _, _, _ => None
  end.

(** [NaT] for the text [NaT], a tz-naive time for [YYYY-MM-DD], a
    tz-aware time for [YYYY-MM-DDThh:mm:ssZ]. *)
Definition to_datetime (s : string) : option Timestamp :=
  match s with
  | "NaT" => Some NaT
  | String y1 (String y2 (String y3 (String y4 (String "-"
      (String m1 (String m2 (String "-" (String d1 (String d2 rest))))))))) =>
      match date_of y1 y2 y3 y4 m1 m2 d1 d2, rest with
      | Some day, EmptyString => Some (Naive day)
      | Some day, String "T" (String h1 (String h2 (String ":"
          (String n1 (String n2 (String ":" (String s1 (String s2 "Z")))))))) =>
          match time_of h1 h2 n1 n2 s1 s2 with
          | Some time => Some (Aware (day + time))
          | None => None
          end
      | _, _ => None
      end
  | _ => None
  end.

End Iso.

(** ** The wording of the specification, for comparison *)

Module Wording.

Definition is_letter (c : ascii) : bool :=
  let n := nat_of_ascii c in
  ((65 <=? n) && (n <=? 90) || (97 <=? n) && (n <=? 122))%nat.

(** "the leading run of letters": the letters the text starts with. *)
Fixpoint leading_letters (s : string) : string :=
  match s with
  | EmptyString => EmptyString
  | String c t => if is_letter c then String c (leading_letters t) else EmptyString
  end.

(** The leading run of letters looked up in the enumeration. *)
Definition bubble_of_leading_letters (s : string) : Z :=
  fillna 10 (dict_get size_map (leading_letters s)).

(** The enumeration matched at the start of the text, [XL] tried before
    the single letters. *)
Definition bubble_of_leading_match (s : string) : Z :=
  if prefix "XL" s then 42%Z
  else if prefix "S" s then 14%Z
  else if prefix "M" s then 22%Z
  else if prefix "L" s then 32%Z
  else 10%Z.

(** A timestamp cell that is missing or blank: no such column, an empty
    field, only white space, or the text [nan] in any case. *)
Definition blank (dt : option cell) : Prop :=
  match dt with
  | None => True
  | Some NaN => True
  | Some (Str s) => Regex.all_chars isspace s = true \/ lower s = "nan"
  end.

End Wording.

(** ** Sample data *)

Module Sample.

Definition locker (address borough size : string) (name : option cell)
    (latitude longitude : Q) (delivery receive withdraw expire : option cell) : Row :=
  {| row_Type := Str "Package";
     row_Location_Type := Str "Retail";
     row_Borough := Str borough;
     row_Locker_Size := Str size;
     row_Status := Str "Active";
     row_Latitude := Some latitude;
     row_longitude := Some longitude;
     row_Address := Str address;
     row_Locker_Name := name;
     row_Delivery_Date := delivery;
     row_Receive_Date := receive;
     row_Withdraw_Date := withdraw;
     row_Expire_Date := expire |}.

(** All four dates present: Delivery 2024-03-01, Receive 2024-03-05,
    Withdraw 2024-03-07, Expire 2024-03-10. *)
Definition main_st : Row :=
  locker "1 Main St" "Brooklyn" "XL" (Some (Str "Main Street Locker"))
    (406 # 10) (-740 # 10)
    (Some (Str "2024-03-01")) (Some (Str "2024-03-05"))
    (Some (Str "2024-03-07")) (Some (Str "2024-03-10")).

(** Withdrawn before it was received. *)
Definition oak_ave : Row :=
  locker "2 Oak Ave" "Queens" "M" (Some NaN)
    (408 # 10) (-738 # 10)
    (Some (Str "2024-03-01")) (Some (Str "2024-03-09"))
    (Some (Str "2024-03-04")) (Some (Str "2024-03-10")).

(** One date only. *)
Definition elm_rd : Row :=
  locker "3 Elm Rd" "Queens" "S" None
    (407 # 10) (-739 # 10)
    (Some (Str "2024-03-01")) (Some NaN) (Some (Str "  ")) None.

(** One date that is a date and one text that is not. *)
Definition pine_ct : Row :=
  locker "4 Pine Ct" "Bronx" "L" None
    (409 # 10) (-737 # 10)
    (Some (Str "2024-03-01")) (Some (Str "next week")) (Some NaN) (Some NaN).

Definition df : DataFrame := [main_st; oak_ave; elm_rd; pine_ct].

(** A row whose borough field is empty and whose address is that of
    another row. *)
Definition ash_ln : Row :=
  {| row_Type := Str "Package";
     row_Location_Type := Str "Transit";
     row_Borough := NaN;
     row_Locker_Size := Str "XXL";
     row_Status := Str "Active";
     row_Latitude := None;
     row_longitude := Some (-736 # 10);
     row_Address := Str "2 Oak Ave";
     row_Locker_Name := None;
     row_Delivery_Date := None;
     row_Receive_Date := None;
     row_Withdraw_Date := None;
     row_Expire_Date := None |}.

(** Two dates and a text that is not a date. *)
Definition birch_way : Row :=
  locker "6 Birch Way" "Bronx" "M" None
    (409 # 10) (-737 # 10)
    (Some (Str "2024-03-01")) (Some (Str "2024-03-05"))
    (Some (Str "next week")) (Some NaN).

(** Two dates around the text [NaT], the later date first. *)
Definition cedar_st : Row :=
  locker "7 Cedar St" "Bronx" "M" None
    (409 # 10) (-737 # 10)
    (Some (Str "2024-03-05")) (Some (Str "NaT"))
    (Some (Str "2024-03-01")) (Some NaN).

(** A tz-naive date and a tz-aware one. *)
Definition maple_dr : Row :=
  locker "8 Maple Dr" "Bronx" "M" None
    (409 # 10) (-737 # 10)
    (Some (Str "2024-03-01")) (Some (Str "2024-03-05T00:00:00Z"))
    (Some NaN) (Some NaN).

Definition odd_dates : DataFrame := [birch_way; cedar_st; maple_dr].

Definition click (address : string) : option ClickData :=
  Some {| points := Some [{| hovertext := Some address; point_Address := None |}] |}.

Definition all_ : pyvalue := Some "All".

Definition all_filters : list pyvalue := [all_; all_; all_; all_; all_].

Definition queens_only : list pyvalue := [all_; all_; Some "Queens"; all_; all_].

End Sample.

(** ** Sidebar *)

(** The name of a column in the CSV file. *)
Definition column_name (col : column) : string :=
  match col with
  | Type_ => "Type"
  | Location_Type => "Location Type"
  | Borough => "Borough"
  | Locker_Size => "Locker Size"
  | Status => "Status"
  | Address => "Address"
  end.

Definition column_eqb (a b : column) : bool :=
  String.eqb (column_name a) (column_name b).

(** [df[col]] *)
Definition series (df : DataFrame) (col : column) : list cell :=
  map (fun r => getitem r col) df.

(** [Series.dropna()] on a text column. *)
Fixpoint dropna_text (s : list cell) : list string :=
  match s with
  | [] => []
  | NaN :: rest => dropna_text rest
  | Str x :: rest => x :: dropna_text rest
  end.

(** [Series.unique()]: each value once, in the order of first
    appearance. *)
Fixpoint unique (l : list string) : list string :=
  match l with
  | [] => []
  | x :: xs => x :: filter (fun y => negb (String.eqb y x)) (unique xs)
  end.

(** The order of Python's [str]: code point by code point. *)
Definition str_le (a b : string) : Prop := String.leb a b = true.

(** [sorted(values)] on strings. *)
Fixpoint insert_sorted (x : string) (l : list string) : list string :=
  match l with
  | [] => [x]
  | y :: ys => if String.leb x y then x :: y :: ys else y :: insert_sorted x ys
  end.

Fixpoint sorted (l : list string) : list string :=
  match l with
  | [] => []
  | x :: xs => insert_sorted x (sorted xs)
  end.

(** One entry of [options]. *)
Record dropdown_option : Type := mkOption {
  option_label : string;
  option_value : string
}.

(** A [dcc.Dropdown], without its style. *)
Record Dropdown : Type := mkDropdown {
  dropdown_id : string;
  dropdown_options : list dropdown_option;
  dropdown_value : string;
  dropdown_clearable : bool
}.

(** The sidebar: one dropdown per filter column and the clear button. *)
Record Sidebar : Type := mkSidebar {
  dropdowns : list Dropdown;
  clear_button_id : string
}.

(** [sorted(df[col].dropna().unique())] *)
Definition offered (df : DataFrame) (col : column) : list string :=
  sorted (unique (dropna_text (series df col))).

(** [make_sidebar()], with the module-level table [df] made explicit. *)
Definition make_sidebar (df : DataFrame) : Sidebar :=
  {| dropdowns :=
       map (fun col =>
              {| dropdown_id := "filter-" ++ column_name col;
                 dropdown_options :=
                   {| option_label := "All"; option_value := "All" |}
                   :: map (fun v => {| option_label := v; option_value := v |})
                        (offered df col);
                 dropdown_value := "All";
                 dropdown_clearable := false |})
           filter_columns;
     clear_button_id := "clear-all" |}.

(** The five dropdown values when [v] is picked in the dropdown of [col]
    and the others are left at their initial value. *)
Definition pick (col : column) (v : string) : list pyvalue :=
  map (fun c => if column_eqb c col then Some v else Some "All") filter_columns.

(** The selections [tight] narrow the selections [loose]: where [loose]
    constrains a column, [tight] holds the same value. *)
Definition narrows (tight loose : list pyvalue) : Prop :=
  Forall2 (fun t l => not_in_wildcards l = false \/ t = l) tight loose.

(** * Properties *)

(** ** Filter engine *)

Section FilterEngine.

Variable df : DataFrame.

Lemma not_in_wildcards_false (v : pyvalue) :
  not_in_wildcards v = false <-> v = None \/ v = Some "All".
Proof.
  unfold not_in_wildcards; simpl.
  destruct v as [x|]; simpl.
  - rewrite orb_false_r, negb_false_iff, String.eqb_eq.
    split; [intros ->; now right | intros [H|H]; congruence].
  - split; [now left | reflexivity].
Qed.

Lemma satisfiesb_spec (r : Row) (col : column) (v : pyvalue) :
  satisfiesb r (col, v) = true <-> satisfies r col v.
Proof.
  unfold satisfiesb, satisfies; simpl.
  destruct (not_in_wildcards v) eqn:W.
  - destruct v as [x|]; [|discriminate W].
    assert (x <> "All") as Hx.
    { intros ->. discriminate W. }
    unfold cell_eqb.
    destruct (getitem r col) as [|s].
    + split; [discriminate | intros [H|H]; [contradiction | discriminate]].
    + rewrite String.eqb_eq.
      split; [intros ->; now right | intros [H|H]; [contradiction | congruence]].
  - apply not_in_wildcards_false in W.
    destruct W as [-> | ->]; split; auto.
Qed.

(** The loop is one pass that keeps the rows passing every pair. *)
Lemma filter_loop_filter (pairs : list (column * pyvalue)) (dff : DataFrame) :
  filter_loop pairs dff = filter (fun r => forallb (satisfiesb r) pairs) dff.
Proof.
  revert dff.
  induction pairs as [|[col v] rest IH]; intros dff; simpl.
  - induction dff as [|r dff IHd]; simpl; congruence.
  - rewrite IH.
    unfold satisfiesb at 2; simpl.
    destruct (not_in_wildcards v).
    + unfold select_eq.
      induction dff as [|r dff IHd]; simpl; [reflexivity|].
      destruct (cell_eqb (getitem r col) v); simpl; [|exact IHd].
      destruct (forallb (satisfiesb r) rest); simpl; congruence.
    + reflexivity.
Qed.

Lemma filter_twice {A : Type} (f : A -> bool) (l : list A) :
  filter f (filter f l) = filter f l.
Proof.
  induction l as [|a l IH]; simpl; [reflexivity|].
  destruct (f a) eqn:E; simpl; [rewrite E|]; congruence.
Qed.

Lemma wildcards_keep_all (pairs : list (column * pyvalue)) (dff : DataFrame) :
  Forall (fun cv => snd cv = None \/ snd cv = Some "All") pairs ->
  filter_loop pairs dff = dff.
Proof.
  intros H; revert dff.
  induction H as [|[col v] rest Hv _ IH]; intros dff; simpl; [reflexivity|].
  apply not_in_wildcards_false in Hv; simpl in Hv.
  rewrite Hv; apply IH.
Qed.

Lemma Forall_combine_snd {A B : Type} (P : B -> Prop) (l : list A) (l' : list B) :
  Forall P l' -> Forall (fun ab => P (snd ab)) (combine l l').
Proof.
  intros H; revert l.
  induction H as [|b l' Hb _ IH]; intros [|a l]; simpl; constructor; auto.
Qed.

(** C1: for every assignment of one selection to each of the five filter
    columns, [filter_df] returns exactly the rows of the table that
    satisfy, for each column whose selection is neither the wildcard
    ["All"] nor omitted, the equality of the row's cell with the selected
    string; a wildcard or omitted selection constrains nothing.  The rows
    keep their order and their multiplicity. *)
Theorem filter_df_is_conjunction (type_ location_type borough locker_size status : pyvalue) :
  let args := [type_; location_type; borough; locker_size; status] in
  filter_df df args
    = filter (fun r => forallb (satisfiesb r) (combine filter_columns args)) df
  /\ forall r : Row,
       In r (filter_df df args) <->
       In r df
       /\ satisfies r Type_ type_
       /\ satisfies r Location_Type location_type
       /\ satisfies r Borough borough
       /\ satisfies r Locker_Size locker_size
       /\ satisfies r Status status.
Proof.
  intros args.
  assert (filter_df df args
          = filter (fun r => forallb (satisfiesb r) (combine filter_columns args)) df) as E
    by apply filter_loop_filter.
  split; [exact E|].
  intros r.
  rewrite E, filter_In.
  unfold args; simpl.
  rewrite !andb_true_iff, !satisfiesb_spec.
  tauto.
Qed.

(** C8: filtering is idempotent: [filter_df] applied with the same
    selections to its own result returns that result. *)
Theorem filter_df_idempotent (args : list pyvalue) :
  filter_df (filter_df df args) args = filter_df df args.
Proof.
  unfold filter_df.
  rewrite !filter_loop_filter.
  apply filter_twice.
Qed.

(** C9: [clear_all] sets each of the five selections to the wildcard
    ["All"], and [filter_df] with these selections returns the whole
    table. *)
Theorem clear_all_restores_table (n_clicks : option Z) :
  clear_all n_clicks = [Some "All"; Some "All"; Some "All"; Some "All"; Some "All"]
  /\ List.length (clear_all n_clicks) = List.length filter_columns
  /\ filter_df df (clear_all n_clicks) = df.
Proof.
  repeat split.
Qed.

Lemma none_as_all (cols : list column) (before after : list pyvalue) (dff : DataFrame) :
  filter_loop (combine cols (before ++ None :: after)) dff
  = filter_loop (combine cols (before ++ Some "All" :: after)) dff.
Proof.
  revert cols dff.
  induction before as [|v before IH]; intros [|col cols] dff; simpl; auto.
Qed.

(** C10: a selection [None] is treated as the wildcard ["All"]: in any
    column, [None] gives the result that ["All"] gives, and when every
    selection is [None] or ["All"], [filter_df] returns the whole
    table. *)
Theorem filter_df_none_is_wildcard (args : list pyvalue) :
  Forall (fun v => v = None \/ v = Some "All") args ->
  filter_df df args = df
  /\ forall before after : list pyvalue,
       filter_df df (before ++ None :: after)
       = filter_df df (before ++ Some "All" :: after).
Proof.
  intros H; split.
  - apply wildcards_keep_all.
    apply (Forall_combine_snd (fun v => v = None \/ v = Some "All")).
    exact H.
  - intros before after. apply none_as_all.
Qed.

End FilterEngine.

Lemma filter_df_none_is_wildcard_witness :
  Forall (fun v : pyvalue => v = None \/ v = Some "All")
    [None; Some "All"; None; None; Some "All"]
  /\ filter_df Sample.df [None; Some "All"; None; None; Some "All"] = Sample.df
  /\ filter_df Sample.df [None; Some "Retail"; None; None; Some "All"]
     = filter_df Sample.df [Some "All"; Some "Retail"; Some "All"; None; Some "All"].
Proof.
  assert (Forall (fun v : pyvalue => v = None \/ v = Some "All")
            [None; Some "All"; None; None; Some "All"]) as H.
  { repeat (apply Forall_cons; [auto|]). apply Forall_nil. }
  split; [exact H|].
  destruct (filter_df_none_is_wildcard Sample.df _ H) as [E N].
  split; [exact E|].
  transitivity (filter_df Sample.df [Some "All"; Some "Retail"; None; None; Some "All"]).
  - exact (N [] [Some "Retail"; None; None; Some "All"]).
  - exact (N [Some "All"; Some "Retail"] [None; Some "All"]).
Defined.

(** ** Dataset loader *)

Section Search.

Import Regex.

Variable cls : list ascii.

Lemma greedy_run (run post : string) :
  all_chars (in_class cls) run = true ->
  starts_in_class cls post = false ->
  greedy cls (run ++ post)%string = run.
Proof.
  intros Hrun Hpost.
  induction run as [|c run IH]; simpl in *.
  - destruct post as [|d post]; simpl in *; [reflexivity|].
    now rewrite Hpost.
  - apply andb_true_iff in Hrun as [Hc Hrun].
    rewrite Hc, IH; auto.
Qed.

Lemma greedy_split (s : string) :
  exists post,
    s = (greedy cls s ++ post)%string
    /\ all_chars (in_class cls) (greedy cls s) = true
    /\ starts_in_class cls post = false.
Proof.
  induction s as [|c s (post & E & Hall & Hpost)]; simpl.
  - exists EmptyString; auto.
  - destruct (in_class cls c) eqn:Hc; simpl.
    + exists post. rewrite Hc, Hall, <- E. auto.
    + exists (String c s); simpl; auto.
Qed.

Lemma search_at_run (run post : string) :
  run <> EmptyString ->
  all_chars (in_class cls) run = true ->
  starts_in_class cls post = false ->
  search cls (run ++ post)%string = Some run.
Proof.
  intros Hne Hrun Hpost.
  assert (match_plus cls (run ++ post)%string = Some run) as M.
  { unfold match_plus. rewrite greedy_run by assumption.
    destruct run; [contradiction | reflexivity]. }
  destruct run as [|c run]; [contradiction|].
  simpl in *. unfold search. fold search. now rewrite M.
Qed.

Lemma search_skip (pre s : string) :
  all_chars (outside cls) pre = true ->
  search cls (pre ++ s)%string = search cls s.
Proof.
  unfold outside.
  induction pre as [|c pre IH]; intros H; [reflexivity|].
  simpl in H. apply andb_true_iff in H as [Hc Hpre].
  apply negb_true_iff in Hc.
  change (String c pre ++ s)%string with (String c (pre ++ s)%string).
  unfold search; fold search.
  unfold match_plus; simpl.
  rewrite Hc. auto.
Qed.

Lemma search_none (s : string) :
  all_chars (outside cls) s = true -> search cls s = None.
Proof.
  unfold outside.
  induction s as [|c s IH]; intros H; [reflexivity|].
  simpl in H. apply andb_true_iff in H as [Hc Hs].
  apply negb_true_iff in Hc.
  unfold search; fold search.
  unfold match_plus; simpl.
  rewrite Hc. auto.
Qed.

(** [re.search] finds the first maximal run of class characters. *)
Lemma search_first_run (pre run post : string) :
  all_chars (outside cls) pre = true ->
  run <> EmptyString ->
  all_chars (in_class cls) run = true ->
  starts_in_class cls post = false ->
  search cls (pre ++ run ++ post)%string = Some run.
Proof.
  intros Hpre Hne Hrun Hpost.
  rewrite search_skip by assumption.
  now apply search_at_run.
Qed.

(** Every string is of one of the two shapes. *)
Lemma first_run_exists (s : string) :
  all_chars (outside cls) s = true
  \/ exists pre run post,
       s = (pre ++ run ++ post)%string
       /\ all_chars (outside cls) pre = true
       /\ run <> EmptyString
       /\ all_chars (in_class cls) run = true
       /\ starts_in_class cls post = false.
Proof.
  induction s as [|c s IH]; [now left|].
  destruct (in_class cls c) eqn:Hc.
  - right.
    destruct (greedy_split (String c s)) as (post & E & Hall & Hpost).
    exists EmptyString, (greedy cls (String c s)), post.
    repeat split; auto.
    simpl. rewrite Hc. discriminate.
  - destruct IH as [IH | (pre & run & post & E & Hpre & Hne & Hrun & Hpost)].
    + left. simpl. unfold outside at 1. now rewrite Hc.
    + right. exists (String c pre), run, post.
      repeat split; auto.
      * simpl. now rewrite E.
      * simpl. unfold outside at 1. now rewrite Hc.
Qed.

End Search.

(** C2, as the code has it: the value of ["Bubble Size"] is found from
    the first run of the letters S, M, L, X that occurs anywhere in the
    text of the locker size, not only at its start, taken as long as it
    goes: the run [S] gives 14, [M] gives 22, [L] gives 32, [XL] gives 42,
    and any other run, or a text without such a letter, gives the default
    10.  So [XL] is never read as [X] then [L]; an empty field, the empty
    text and [unknown] give 10. *)
Theorem bubble_size_first_run :
  (forall s,
      Regex.all_chars (Regex.outside SMLX) s = true ->
      bubble_size (Str s) = 10%Z)
  /\ (forall pre run post,
      Regex.all_chars (Regex.outside SMLX) pre = true ->
      run <> EmptyString ->
      Regex.all_chars (Regex.in_class SMLX) run = true ->
      Regex.starts_in_class SMLX post = false ->
      bubble_size (Str (pre ++ run ++ post)%string)
      = if String.eqb "S" run then 14%Z
        else if String.eqb "M" run then 22%Z
        else if String.eqb "L" run then 32%Z
        else if String.eqb "XL" run then 42%Z
        else 10%Z)
  /\ (forall s,
      Regex.all_chars (Regex.outside SMLX) s = true
      \/ exists pre run post,
           s = (pre ++ run ++ post)%string
           /\ Regex.all_chars (Regex.outside SMLX) pre = true
           /\ run <> EmptyString
           /\ Regex.all_chars (Regex.in_class SMLX) run = true
           /\ Regex.starts_in_class SMLX post = false)
  /\ bubble_size (Str "S") = 14%Z
  /\ bubble_size (Str "M") = 22%Z
  /\ bubble_size (Str "L") = 32%Z
  /\ bubble_size (Str "XL") = 42%Z
  /\ bubble_size (Str "unknown") = 10%Z
  /\ bubble_size (Str "") = 10%Z
  /\ bubble_size NaN = 10%Z.
Proof.
  split; [|split; [|split]].
  - intros s H. unfold bubble_size, str_extract; simpl.
    now rewrite (search_none SMLX s H).
  - intros pre run post Hpre Hne Hrun Hpost.
    unfold bubble_size, str_extract; simpl astype_str.
    rewrite (search_first_run SMLX pre run post Hpre Hne Hrun Hpost).
    unfold map_size_map, size_map; cbn [dict_get].
    destruct (String.eqb "S" run); [reflexivity|].
    destruct (String.eqb "M" run); [reflexivity|].
    destruct (String.eqb "L" run); [reflexivity|].
    destruct (String.eqb "XL" run); reflexivity.
  - apply first_run_exists.
  - repeat split.
Qed.

Lemma bubble_size_first_run_witness :
  bubble_size (Str ("size " ++ "XL" ++ " (wide)")%string) = 42%Z
  /\ bubble_size (Str ("" ++ "XXL" ++ "")%string) = 10%Z
  /\ bubble_size (Str "n/a") = 10%Z.
Proof.
  destruct bubble_size_first_run as (Hnone & Hrun & _).
  split; [|split].
  - apply (Hrun "size " "XL" " (wide)"); [reflexivity | discriminate | reflexivity | reflexivity].
  - apply (Hrun "" "XXL" ""); [reflexivity | discriminate | reflexivity | reflexivity].
  - apply (Hnone "n/a"); reflexivity.
Defined.

(** C2, as the specification words it, fails: in ["size XL"] the leading
    run of letters is ["size"] and no member of the enumeration starts the
    text, so the wording gives the default 10, while the code finds the
    run [XL] further on and gives 42. *)
Lemma bubble_size_not_leading :
  bubble_size (Str "size XL") = 42%Z
  /\ Wording.leading_letters "size XL" = "size"
  /\ Wording.bubble_of_leading_letters "size XL" = 10%Z
  /\ Wording.bubble_of_leading_match "size XL" = 10%Z
  /\ bubble_size (Str "size XL") <> Wording.bubble_of_leading_letters "size XL"
  /\ bubble_size (Str "size XL") <> Wording.bubble_of_leading_match "size XL".
Proof.
  repeat split; discriminate.
Qed.

(** ** Timeline renderer: the guard *)

Lemma rstrip_keeps_head (c : ascii) (t : string) :
  isspace c = false -> rstrip (String c t) <> EmptyString.
Proof.
  intros Hc; simpl.
  destruct (rstrip t); [rewrite Hc|]; discriminate.
Qed.

Lemma lstrip_cases (s : string) :
  (Regex.all_chars isspace s = true /\ lstrip s = EmptyString)
  \/ (Regex.all_chars isspace s = false
      /\ exists c t, lstrip s = String c t /\ isspace c = false).
Proof.
  induction s as [|c s IH]; simpl; [now left|].
  destruct (isspace c) eqn:Hc; simpl.
  - exact IH.
  - right. split; [reflexivity|]. now exists c, s.
Qed.

Lemma strip_empty (s : string) :
  strip s = EmptyString <-> Regex.all_chars isspace s = true.
Proof.
  unfold strip.
  destruct (lstrip_cases s) as [[Hall ->] | [Hall (c & t & -> & Hc)]].
  - now split.
  - split; [|congruence].
    intros H. now apply rstrip_keeps_head in H.
Qed.

(** The guard rejects exactly the dates that are missing or blank. *)
Lemma guard_false_iff_blank (dt : option cell) :
  guard dt = false <-> Wording.blank dt.
Proof.
  unfold guard.
  destruct dt as [[|s]|]; simpl; try (split; auto; fail).
  rewrite <- strip_empty, andb_false_iff, !negb_false_iff, !String.eqb_eq.
  reflexivity.
Qed.

(** ** [list.sort]: what holds of every comparison *)

Section SortAny.

Context {A : Type}.
Variable lt : A -> A -> result bool.

Lemma take_run_split (descending : bool) (prev : A) (l run rest : list A) :
  ListSort.take_run lt descending prev l = Return (run, rest) -> l = run ++ rest.
Proof.
  revert prev run rest.
  induction l as [|x xs IH]; intros prev run rest; simpl.
  - intros H. now inversion H.
  - destruct (lt x prev) as [smaller|e]; simpl; [|discriminate].
    destruct (Bool.eqb smaller descending).
    + destruct (ListSort.take_run lt descending x xs) as [[run' rest']|e] eqn:E;
        simpl; [|discriminate].
      intros H. inversion H; subst. simpl. f_equal. now apply (IH x).
    + intros H. now inversion H.
Qed.

Lemma count_run_perm (l run rest : list A) :
  ListSort.count_run lt l = Return (run, rest) -> Permutation l (run ++ rest).
Proof.
  destruct l as [|a [|b l]]; simpl.
  - intros H. now inversion H.
  - intros H. now inversion H.
  - destruct (lt b a) as [descending|e]; simpl; [|discriminate].
    destruct (ListSort.take_run lt descending b l) as [[run' rest']|e] eqn:E;
      simpl; [|discriminate].
    apply take_run_split in E. subst l.
    intros H. inversion H; subst; clear H.
    destruct descending.
    + change (a :: b :: run' ++ rest) with ((a :: b :: run') ++ rest).
      apply Permutation_app_tail, Permutation_rev.
    + reflexivity.
Qed.

Lemma insert_perm (k : nat) (pivot : A) (a : list A) :
  Permutation (pivot :: a) (firstn k a ++ pivot :: skipn k a).
Proof.
  rewrite <- (firstn_skipn k a) at 1.
  apply Permutation_middle.
Qed.

Lemma binarysort_perm (sorted_part rest out : list A) :
  ListSort.binarysort lt sorted_part rest = Return out ->
  Permutation (sorted_part ++ rest) out.
Proof.
  revert sorted_part.
  induction rest as [|pivot rest IH]; intros sorted_part; simpl.
  - intros H. inversion H. now rewrite app_nil_r.
  - destruct (ListSort.bisect lt _ pivot sorted_part 0 _) as [k|e]; simpl; [|discriminate].
    intros H. apply IH in H.
    etransitivity; [|exact H].
    etransitivity; [symmetry; apply Permutation_middle|].
    change (pivot :: sorted_part ++ rest) with ((pivot :: sorted_part) ++ rest).
    apply Permutation_app_tail, insert_perm.
Qed.

(** What [list.sort] returns is a rearrangement of the list. *)
Lemma sort_perm (l out : list A) :
  ListSort.sort lt l = Return out -> Permutation l out.
Proof.
  unfold ListSort.sort.
  destruct (ListSort.count_run lt l) as [[run rest]|e] eqn:E; simpl; [|discriminate].
  intros H. rewrite (count_run_perm l run rest E).
  now apply binarysort_perm.
Qed.

Lemma raised_by_incl (l l' : list A) (e : exn) :
  incl l l' -> raised_by lt l e -> raised_by lt l' e.
Proof.
  intros Hincl (x & y & Hx & Hy & H). exists x, y. auto.
Qed.

Lemma take_run_raises (descending : bool) (prev : A) (l : list A) (e : exn) :
  ListSort.take_run lt descending prev l = Raise e -> raised_by lt (prev :: l) e.
Proof.
  revert prev.
  induction l as [|x xs IH]; intros prev; simpl; [discriminate|].
  destruct (lt x prev) as [smaller|e'] eqn:Hlt; simpl.
  - destruct (Bool.eqb smaller descending); [|discriminate].
    destruct (ListSort.take_run lt descending x xs) as [[run' rest']|e'] eqn:E;
      simpl; [discriminate|].
    intros H. inversion H; subst.
    apply (raised_by_incl (x :: xs)); [|now apply IH].
    intros z Hz. now right.
  - intros H. inversion H; subst.
    exists x, prev. simpl. auto.
Qed.

Lemma count_run_raises (l : list A) (e : exn) :
  ListSort.count_run lt l = Raise e -> raised_by lt l e.
Proof.
  destruct l as [|a [|b l]]; simpl; try discriminate.
  destruct (lt b a) as [descending|e'] eqn:Hlt; simpl.
  - destruct (ListSort.take_run lt descending b l) as [[run' rest']|e'] eqn:E;
      simpl; [discriminate|].
    intros H. inversion H; subst.
    apply (raised_by_incl (b :: l)); [|now apply take_run_raises in E].
    intros z Hz. now right.
  - intros H. inversion H; subst. exists b, a. simpl. auto.
Qed.

Lemma bisect_raises (fuel : nat) (pivot : A) (a : list A) (l r : nat) (e : exn) :
  ListSort.bisect lt fuel pivot a l r = Raise e -> raised_by lt (pivot :: a) e.
Proof.
  revert l r.
  induction fuel as [|fuel IH]; intros l r; cbn [ListSort.bisect]; [discriminate|].
  destruct (l <? r)%nat; [|discriminate].
  destruct (lt pivot (nth (l + (r - l) / 2) a pivot)) as [smaller|e'] eqn:Hlt; cbn [bind].
  - destruct smaller; apply IH.
  - intros H. inversion H; subst.
    exists pivot, (nth (l + (r - l) / 2) a pivot).
    split; [now left|]. split; [|exact Hlt].
    destruct (nth_in_or_default (l + (r - l) / 2) a pivot) as [Hin | ->];
      [now right | now left].
Qed.

Lemma binarysort_raises (sorted_part rest : list A) (e : exn) :
  ListSort.binarysort lt sorted_part rest = Raise e ->
  raised_by lt (sorted_part ++ rest) e.
Proof.
  revert sorted_part.
  induction rest as [|pivot rest IH]; intros sorted_part; simpl; [discriminate|].
  destruct (ListSort.bisect lt _ pivot sorted_part 0 _) as [k|e'] eqn:B; simpl.
  - intros H. apply IH in H.
    revert H. apply raised_by_incl.
    intros z Hz. apply in_app_or in Hz as [Hz | Hz].
    + apply (Permutation_in z (Permutation_sym (insert_perm k pivot sorted_part))) in Hz.
      destruct Hz as [<- | Hz]; apply in_or_app; [right; now left | now left].
    + apply in_or_app. right. now right.
  - intros H. inversion H; subst.
    apply bisect_raises in B.
    revert B. apply raised_by_incl.
    intros z [<- | Hz]; apply in_or_app; [right; now left | now left].
Qed.

Lemma sort_raises (l : list A) (e : exn) :
  ListSort.sort lt l = Raise e -> raised_by lt l e.
Proof.
  unfold ListSort.sort.
  destruct (ListSort.count_run lt l) as [[run rest]|e'] eqn:E; simpl.
  - intros H. apply binarysort_raises in H.
    revert H. apply raised_by_incl.
    intros z Hz.
    exact (Permutation_in z (Permutation_sym (count_run_perm l run rest E)) Hz).
  - intros H. inversion H; subst. now apply count_run_raises.
Qed.

End SortAny.

(** ** [list.sort]: items that were compared *)

Section SortRelated.

Context {A : Type}.
Variable lt : A -> A -> result bool.

(** [good] items are related by [R] as soon as their comparison returns. *)
Variable good : A -> Prop.
Variable R : A -> A -> Prop.
Hypothesis R_refl : forall x, R x x.
Hypothesis R_sym : forall x y, R x y -> R y x.
Hypothesis R_trans : forall x y z, R x y -> R y z -> R x z.
Hypothesis compared :
  forall x y b, good x -> good y -> lt x y = Return b -> R x y.

Lemma take_run_related (descending : bool) (prev : A) (l run rest : list A) :
  ListSort.take_run lt descending prev l = Return (run, rest) ->
  Forall good (prev :: l) ->
  Forall (R prev) run.
Proof.
  revert prev run rest.
  induction l as [|x xs IH]; intros prev run rest; simpl.
  - intros H _. inversion H. constructor.
  - destruct (lt x prev) as [smaller|e] eqn:Hlt; simpl; [|discriminate].
    intros H Hgood.
    inversion Hgood as [|? ? Hprev Hrest]; subst.
    inversion Hrest as [|? ? Hx Hxs]; subst.
    destruct (Bool.eqb smaller descending).
    + destruct (ListSort.take_run lt descending x xs) as [[run' rest']|e] eqn:E;
        simpl in H; [|discriminate].
      inversion H; subst; clear H.
      assert (R prev x) as Hpx by (apply R_sym; eapply compared; eauto).
      constructor; [exact Hpx|].
      apply (IH x run' rest E) in Hrest.
      eapply Forall_impl; [|exact Hrest].
      intros z Hz. now apply (R_trans _ x).
    + inversion H. constructor.
Qed.

Lemma count_run_related (l run rest : list A) :
  ListSort.count_run lt l = Return (run, rest) ->
  Forall good l ->
  (List.length l < 2)%nat \/ (run <> [] /\ exists c, Forall (R c) run).
Proof.
  destruct l as [|a [|b l]]; simpl; [left; lia | left; lia |].
  destruct (lt b a) as [descending|e] eqn:Hlt; simpl; [|discriminate].
  destruct (ListSort.take_run lt descending b l) as [[run' rest']|e] eqn:E;
    simpl; [|discriminate].
  intros H Hgood. inversion H; subst; clear H. right.
  inversion Hgood as [|? ? Ha Hrest]; subst.
  inversion Hrest as [|? ? Hb Hl]; subst.
  assert (Forall (R b) (a :: b :: run')) as Hall.
  { constructor; [eapply compared; eauto|].
    constructor; [apply R_refl|].
    exact (take_run_related descending b l run' rest E Hrest). }
  split.
  - destruct descending; [|discriminate].
    intros Hnil. destruct (rev run' ++ [b]); discriminate Hnil.
  - exists b. destruct descending; [exact (Forall_rev Hall) | exact Hall].
Qed.

Lemma bisect_compares (fuel : nat) (pivot : A) (a : list A) (r k : nat) :
  ListSort.bisect lt (S fuel) pivot a 0 r = Return k ->
  (0 < r <= List.length a)%nat ->
  exists y b, In y a /\ lt pivot y = Return b.
Proof.
  cbn [ListSort.bisect]. intros H Hr.
  assert ((0 <? r)%nat = true) as Hlt by (apply Nat.ltb_lt; lia).
  rewrite Hlt in H.
  destruct (lt pivot (nth (0 + (r - 0) / 2) a pivot)) as [b|e] eqn:E; [|discriminate H].
  exists (nth (0 + (r - 0) / 2) a pivot), b.
  split; [|exact E].
  apply nth_In.
  assert ((r - 0) / 2 < r)%nat by (apply Nat.Div0.div_lt_upper_bound; lia).
  lia.
Qed.

Lemma binarysort_related (sorted_part rest out : list A) (c : A) :
  ListSort.binarysort lt sorted_part rest = Return out ->
  sorted_part <> [] ->
  good c ->
  Forall good (sorted_part ++ rest) ->
  Forall (R c) sorted_part ->
  Forall (R c) out.
Proof.
  revert sorted_part.
  induction rest as [|pivot rest IH]; intros sorted_part; simpl.
  - intros H _ _ _ Hall. now inversion H; subst.
  - destruct (ListSort.bisect lt _ pivot sorted_part 0 _) as [k|e] eqn:B;
      simpl; [|discriminate].
    intros H Hne Hc Hgood Hall.
    apply Forall_app in Hgood as [Hgs Hgr].
    inversion Hgr as [|? ? Hgp Hgrest]; subst.
    assert (R c pivot) as Hcp.
    { destruct sorted_part as [|s0 sorted_part]; [contradiction|].
      cbn [List.length] in B.
      apply bisect_compares in B as (y & b & Hy & Hlt); [|cbn [List.length]; lia].
      rewrite Forall_forall in Hall, Hgs.
      apply (R_trans _ y); [now apply Hall|].
      apply R_sym. eapply compared; eauto. }
    apply (IH _ H).
    + destruct (firstn k sorted_part); discriminate.
    + exact Hc.
    + apply Forall_app. split; [|exact Hgrest].
      eapply Permutation_Forall; [apply insert_perm|]. now constructor.
    + eapply Permutation_Forall; [apply insert_perm|]. now constructor.
Qed.

(** When [list.sort] returns, the items were all related. *)
Lemma sort_related (l out : list A) :
  ListSort.sort lt l = Return out ->
  Forall good l ->
  forall x y, In x l -> In y l -> R x y.
Proof.
  unfold ListSort.sort.
  destruct (ListSort.count_run lt l) as [[run rest]|e] eqn:E; simpl; [|discriminate].
  intros H Hgood.
  destruct (count_run_related l run rest E Hgood) as [Hshort | (Hne & c & Hc)].
  - destruct l as [|a [|b l]]; simpl in Hshort; try lia.
    + intros x y [].
    + intros x y [<- | []] [<- | []]. apply R_refl.
  - pose proof (count_run_perm lt l run rest E) as Hperm.
    assert (Forall good (run ++ rest)) as Hgood'
      by (eapply Permutation_Forall; eauto).
    assert (exists c', good c' /\ Forall (R c') run) as (c' & Hgc' & Hc').
    { destruct run as [|r0 run]; [contradiction|].
      exists r0. split.
      - now inversion Hgood'.
      - inversion Hc as [|? ? Hcr0 _]; subst.
        eapply Forall_impl; [|exact Hc].
        intros z Hz. apply (R_trans _ c); [now apply R_sym | exact Hz]. }
    pose proof (binarysort_related run rest out c' H Hne Hgc' Hgood' Hc') as Hout.
    pose proof (binarysort_perm lt run rest out H) as Hperm'.
    assert (forall z, In z l -> R c' z) as Hall.
    { intros z Hz. rewrite Forall_forall in Hout. apply Hout.
      eapply Permutation_in; [exact Hperm'|].
      eapply Permutation_in; [exact Hperm|exact Hz]. }
    intros x y Hx Hy.
    apply (R_trans _ c'); [apply R_sym|]; now apply Hall.
Qed.

End SortRelated.

(** ** [list.sort]: items that [<] orders *)

Section SortOrdered.

Context {A : Type}.
Variable lt : A -> A -> result bool.
Variable good : A -> Prop.
Variable key : A -> Z.
Hypothesis ordered :
  forall x y, good x -> good y -> lt x y = Return (key x <? key y)%Z.

Lemma ss_app (R : A -> A -> Prop) (l1 l2 : list A) :
  StronglySorted R l1 ->
  StronglySorted R l2 ->
  (forall x y, In x l1 -> In y l2 -> R x y) ->
  StronglySorted R (l1 ++ l2).
Proof.
  induction 1 as [|x l1 Hl1 IH Hx]; intros H2 Hcross; simpl; [exact H2|].
  constructor.
  - apply IH; [exact H2|]. intros a b Ha Hb. apply Hcross; [now right | exact Hb].
  - apply Forall_app. split; [exact Hx|].
    apply Forall_forall. intros b Hb. apply Hcross; [now left | exact Hb].
Qed.

Lemma ss_app_inv (R : A -> A -> Prop) (l1 l2 : list A) :
  StronglySorted R (l1 ++ l2) ->
  StronglySorted R l1 /\ StronglySorted R l2
  /\ forall x y, In x l1 -> In y l2 -> R x y.
Proof.
  induction l1 as [|a l1 IH]; simpl; intros H.
  - repeat split; [constructor | exact H | intros x y []].
  - inversion H as [|? ? Hs Ha]; subst.
    destruct (IH Hs) as (H1 & H2 & Hcross).
    apply Forall_app in Ha as [Ha1 Ha2].
    repeat split; [now constructor | exact H2 |].
    intros x y [<- | Hx] Hy; [|now apply Hcross].
    rewrite Forall_forall in Ha2. now apply Ha2.
Qed.

Lemma key_le_sorted (l : list A) :
  Sorted (key_le key) l -> StronglySorted (key_le key) l.
Proof.
  apply Sorted_StronglySorted. intros x y z. unfold key_le. lia.
Qed.

Lemma key_gt_sorted (l : list A) :
  Sorted (key_gt key) l -> StronglySorted (key_gt key) l.
Proof.
  apply Sorted_StronglySorted. intros x y z. unfold key_gt. lia.
Qed.

Lemma take_run_ascending (prev : A) (l : list A) :
  Forall good (prev :: l) ->
  exists run rest,
    ListSort.take_run lt false prev l = Return (run, rest)
    /\ l = run ++ rest
    /\ Sorted (key_le key) (prev :: run).
Proof.
  revert prev.
  induction l as [|x xs IH]; intros prev Hgood; simpl.
  - exists [], []. repeat split; repeat constructor.
  - inversion Hgood as [|? ? Hprev Hrest]; subst.
    inversion Hrest as [|? ? Hx Hxs]; subst.
    rewrite (ordered x prev Hx Hprev); simpl.
    destruct (key x <? key prev)%Z eqn:E; simpl.
    + exists [], (x :: xs). repeat split; repeat constructor.
    + apply Z.ltb_ge in E.
      destruct (IH x Hrest) as (run & rest & -> & -> & Hsorted).
      exists (x :: run), rest. simpl.
      repeat split. constructor; [exact Hsorted|].
      constructor. exact E.
Qed.

Lemma take_run_descending (prev : A) (l : list A) :
  Forall good (prev :: l) ->
  exists run rest,
    ListSort.take_run lt true prev l = Return (run, rest)
    /\ l = run ++ rest
    /\ Sorted (key_gt key) (prev :: run).
Proof.
  revert prev.
  induction l as [|x xs IH]; intros prev Hgood; simpl.
  - exists [], []. repeat split; repeat constructor.
  - inversion Hgood as [|? ? Hprev Hrest]; subst.
    inversion Hrest as [|? ? Hx Hxs]; subst.
    rewrite (ordered x prev Hx Hprev); simpl.
    destruct (key x <? key prev)%Z eqn:E; simpl.
    + apply Z.ltb_lt in E.
      destruct (IH x Hrest) as (run & rest & -> & -> & Hsorted).
      exists (x :: run), rest. simpl.
      repeat split. constructor; [exact Hsorted|].
      constructor. exact E.
    + exists [], (x :: xs). repeat split; repeat constructor.
Qed.

Lemma take_run_whole (prev : A) (l : list A) :
  Forall good (prev :: l) ->
  Sorted (key_le key) (prev :: l) ->
  ListSort.take_run lt false prev l = Return (l, []).
Proof.
  revert prev.
  induction l as [|x xs IH]; intros prev Hgood Hsorted; simpl; [reflexivity|].
  inversion Hgood as [|? ? Hprev Hrest]; subst.
  inversion Hrest as [|? ? Hx Hxs]; subst.
  inversion Hsorted as [|? ? Htail Hhd]; subst.
  inversion Hhd as [|? ? Hle]; subst. unfold key_le in Hle.
  rewrite (ordered x prev Hx Hprev); simpl.
  apply Z.ltb_ge in Hle. rewrite Hle; simpl.
  now rewrite (IH x Hrest Htail).
Qed.

Lemma descending_one (t : Z) (l : list A) :
  StronglySorted (key_gt key) l ->
  rev (filter (key_is key t) l) = filter (key_is key t) l.
Proof.
  induction 1 as [|x l Hl IH Hx]; cbn [filter]; [reflexivity|].
  destruct (key_is key t x) eqn:E; [|exact IH].
  unfold key_is in E. apply Z.eqb_eq in E.
  replace (filter (key_is key t) l) with (@nil A); [reflexivity|].
  symmetry. clear IH Hl.
  induction Hx as [|y l Hy _ IH]; cbn [filter]; [reflexivity|].
  unfold key_gt in Hy.
  assert (key_is key t y = false) as -> by (apply Z.eqb_neq; lia).
  exact IH.
Qed.

Lemma rev_descending (l : list A) :
  StronglySorted (key_gt key) l ->
  StronglySorted (key_le key) (rev l).
Proof.
  induction 1 as [|x l Hl IH Hx]; simpl; [constructor|].
  apply ss_app; [exact IH | repeat constructor |].
  intros a b Ha [<- | []].
  apply in_rev in Ha. rewrite Forall_forall in Hx.
  specialize (Hx a Ha). unfold key_gt in Hx. unfold key_le. lia.
Qed.

Lemma sorted_nth (a : list A) (d : A) :
  StronglySorted (key_le key) a ->
  forall i j, (i <= j)%nat -> (j < List.length a)%nat ->
  (key (nth i a d) <= key (nth j a d))%Z.
Proof.
  induction 1 as [|x a Ha IH Hx]; intros i j Hij Hj; simpl in Hj; [lia|].
  destruct j as [|j].
  - assert (i = 0)%nat as -> by lia. simpl. lia.
  - destruct i as [|i]; simpl.
    + rewrite Forall_forall in Hx. apply (Hx (nth j a d)). apply nth_In. lia.
    + apply IH; lia.
Qed.

Lemma midpoint (l r : nat) :
  (l < r)%nat -> (l <= l + (r - l) / 2 < r)%nat.
Proof.
  intros H.
  assert ((r - l) / 2 < r - l)%nat by (apply Nat.div_lt; lia).
  lia.
Qed.

Lemma bisect_spec (fuel : nat) (pivot : A) (a : list A) (l r : nat) :
  StronglySorted (key_le key) a ->
  Forall good a ->
  good pivot ->
  (l <= r <= List.length a)%nat ->
  (r - l <= fuel)%nat ->
  (forall i, (i < l)%nat -> (key (nth i a pivot) <= key pivot)%Z) ->
  (forall i, (r <= i < List.length a)%nat -> (key pivot < key (nth i a pivot))%Z) ->
  exists k,
    ListSort.bisect lt fuel pivot a l r = Return k
    /\ (k <= List.length a)%nat
    /\ (forall i, (i < k)%nat -> (key (nth i a pivot) <= key pivot)%Z)
    /\ (forall i, (k <= i < List.length a)%nat -> (key pivot < key (nth i a pivot))%Z).
Proof.
  intros Hsorted Hgood Hpivot.
  revert l r.
  induction fuel as [|fuel IH]; intros l r Hlr Hfuel Hleft Hright;
    cbn [ListSort.bisect].
  - exists l. repeat split; [lia | exact Hleft |].
    intros i Hi. apply Hright. lia.
  - destruct (l <? r)%nat eqn:E.
    + apply Nat.ltb_lt in E.
      pose proof (midpoint l r E) as Hp.
      set (p := (l + (r - l) / 2)%nat) in *.
      assert (good (nth p a pivot)) as Hgp.
      { rewrite Forall_forall in Hgood. apply Hgood, nth_In. lia. }
      rewrite (ordered pivot (nth p a pivot) Hpivot Hgp); cbn [bind].
      destruct (key pivot <? key (nth p a pivot))%Z eqn:C.
      * apply Z.ltb_lt in C.
        apply IH; [lia | lia | exact Hleft |].
        intros i Hi.
        pose proof (sorted_nth a pivot Hsorted p i) as Hs.
        specialize (Hs ltac:(lia) ltac:(lia)). lia.
      * apply Z.ltb_ge in C.
        apply IH; [lia | lia | | exact Hright].
        intros i Hi.
        pose proof (sorted_nth a pivot Hsorted i p) as Hs.
        specialize (Hs ltac:(lia) ltac:(lia)). lia.
    + apply Nat.ltb_ge in E.
      exists l. repeat split; [lia | exact Hleft |].
      intros i Hi. apply Hright. lia.
Qed.

Lemma firstn_below (k : nat) (a : list A) (pivot : A) :
  (forall i, (i < k)%nat -> (key (nth i a pivot) <= key pivot)%Z) ->
  Forall (fun y => (key y <= key pivot)%Z) (firstn k a).
Proof.
  intros H. apply Forall_forall. intros y Hy.
  apply (In_nth _ _ pivot) in Hy as (i & Hi & <-).
  rewrite length_firstn in Hi.
  rewrite nth_firstn.
  assert ((i <? k)%nat = true) as -> by (apply Nat.ltb_lt; lia).
  apply H. lia.
Qed.

Lemma skipn_above (k : nat) (a : list A) (pivot : A) :
  (forall i, (k <= i < List.length a)%nat -> (key pivot < key (nth i a pivot))%Z) ->
  Forall (fun y => (key pivot < key y)%Z) (skipn k a).
Proof.
  intros H. apply Forall_forall. intros y Hy.
  apply (In_nth _ _ pivot) in Hy as (i & Hi & <-).
  rewrite length_skipn in Hi.
  rewrite nth_skipn. apply H. lia.
Qed.

Lemma insert_keeps_sorted (k : nat) (pivot : A) (a : list A) :
  StronglySorted (key_le key) a ->
  Forall (fun y => (key y <= key pivot)%Z) (firstn k a) ->
  Forall (fun y => (key pivot < key y)%Z) (skipn k a) ->
  StronglySorted (key_le key) (firstn k a ++ pivot :: skipn k a).
Proof.
  intros Hsorted Hbelow Habove.
  rewrite <- (firstn_skipn k a) in Hsorted.
  apply ss_app_inv in Hsorted as (H1 & H2 & Hcross).
  rewrite Forall_forall in Hbelow, Habove.
  apply ss_app; [exact H1 | |].
  - constructor; [exact H2|].
    apply Forall_forall. intros y Hy.
    specialize (Habove y Hy). unfold key_le. lia.
  - intros x y Hx [<- | Hy]; [exact (Hbelow x Hx) | now apply Hcross].
Qed.

Lemma insert_keeps_filter (k : nat) (pivot : A) (a : list A) (t : Z) :
  Forall (fun y => (key pivot < key y)%Z) (skipn k a) ->
  filter (key_is key t) (firstn k a ++ pivot :: skipn k a)
  = filter (key_is key t) (a ++ [pivot]).
Proof.
  intros Habove.
  rewrite <- (firstn_skipn k a) at 3.
  rewrite !filter_app. cbn [filter].
  destruct (key_is key t pivot) eqn:E.
  - unfold key_is in E. apply Z.eqb_eq in E.
    replace (filter (key_is key t) (skipn k a)) with (@nil A);
      [now rewrite app_nil_r|].
    symmetry.
    induction Habove as [|y l Hy _ IH]; cbn [filter]; [reflexivity|].
    assert (key_is key t y = false) as -> by (apply Z.eqb_neq; lia).
    exact IH.
  - now rewrite !app_nil_r.
Qed.

Lemma binarysort_ordered (sorted_part rest : list A) :
  StronglySorted (key_le key) sorted_part ->
  Forall good (sorted_part ++ rest) ->
  exists out,
    ListSort.binarysort lt sorted_part rest = Return out
    /\ StronglySorted (key_le key) out
    /\ forall t, filter (key_is key t) out = filter (key_is key t) (sorted_part ++ rest).
Proof.
  revert sorted_part.
  induction rest as [|pivot rest IH]; intros sorted_part Hsorted Hgood; simpl.
  - exists sorted_part. rewrite app_nil_r. auto.
  - apply Forall_app in Hgood as [Hgs Hgr].
    inversion Hgr as [|? ? Hgp Hgrest]; subst.
    destruct (bisect_spec (List.length sorted_part) pivot sorted_part 0
                (List.length sorted_part) Hsorted Hgs Hgp)
      as (k & -> & Hk & Hleft & Hright); [lia | lia | intros i Hi; lia | intros i Hi; lia |].
    cbn [bind].
    pose proof (firstn_below k sorted_part pivot Hleft) as Hbelow.
    pose proof (skipn_above k sorted_part pivot Hright) as Habove.
    destruct (IH (firstn k sorted_part ++ pivot :: skipn k sorted_part))
      as (out & -> & Hout & Hfilter).
    + now apply insert_keeps_sorted.
    + apply Forall_app. split; [|exact Hgrest].
      eapply Permutation_Forall; [apply insert_perm|]. now constructor.
    + exists out. repeat split; [exact Hout|].
      intros t. rewrite Hfilter.
      rewrite (filter_app _ (firstn k sorted_part ++ pivot :: skipn k sorted_part) rest).
      rewrite (insert_keeps_filter k pivot sorted_part t Habove).
      change (pivot :: rest) with ([pivot] ++ rest).
      now rewrite !filter_app, <- app_assoc.
Qed.

Lemma count_run_ordered (l : list A) :
  Forall good l ->
  exists run rest,
    ListSort.count_run lt l = Return (run, rest)
    /\ StronglySorted (key_le key) run
    /\ Forall good (run ++ rest)
    /\ forall t, filter (key_is key t) (run ++ rest) = filter (key_is key t) l.
Proof.
  intros Hgood.
  destruct l as [|a [|b l]]; simpl.
  - exists [], []. repeat split; auto. constructor.
  - exists [a], []. repeat split; auto. repeat constructor.
  - inversion Hgood as [|? ? Ha Hrest]; subst.
    inversion Hrest as [|? ? Hb Hl]; subst.
    rewrite (ordered b a Hb Ha); cbn [bind].
    destruct (key b <? key a)%Z eqn:E.
    + apply Z.ltb_lt in E.
      destruct (take_run_descending b l Hrest) as (run & rest & -> & -> & Hsorted).
      cbn [bind fst snd].
      assert (StronglySorted (key_gt key) (a :: b :: run)) as Hdesc.
      { apply key_gt_sorted. constructor; [exact Hsorted|]. now constructor. }
      exists (rev (a :: b :: run)), rest.
      repeat split.
      * now apply rev_descending.
      * apply Forall_app. apply Forall_app in Hl as [Hrun Hrest'].
        split; [|exact Hrest'].
        apply Forall_rev. repeat constructor; auto.
      * intros t.
        rewrite filter_app, filter_rev, (descending_one t _ Hdesc), <- filter_app.
        reflexivity.
    + apply Z.ltb_ge in E.
      destruct (take_run_ascending b l Hrest) as (run & rest & -> & -> & Hsorted).
      cbn [bind fst snd].
      exists (a :: b :: run), rest.
      repeat split; auto.
      apply key_le_sorted. constructor; [exact Hsorted|]. now constructor.
Qed.

(** On items that [<] orders, [list.sort] returns them in ascending
    order of the key, the items of one key in their order in the list. *)
Lemma sort_ordered (l : list A) :
  Forall good l ->
  exists out,
    ListSort.sort lt l = Return out
    /\ StronglySorted (key_le key) out
    /\ forall t, filter (key_is key t) out = filter (key_is key t) l.
Proof.
  intros Hgood. unfold ListSort.sort.
  destruct (count_run_ordered l Hgood) as (run & rest & -> & Hsorted & Hgood' & Hrun).
  cbn [bind fst snd].
  destruct (binarysort_ordered run rest Hsorted Hgood') as (out & -> & Hout & Hfilter).
  exists out. repeat split; [exact Hout|].
  intros t. now rewrite Hfilter, Hrun.
Qed.

(** A list already in ascending order is returned as it is. *)
Lemma sort_ascending (l : list A) :
  Forall good l ->
  Sorted (key_le key) l ->
  ListSort.sort lt l = Return l.
Proof.
  intros Hgood Hsorted. unfold ListSort.sort.
  destruct l as [|a [|b l]]; [reflexivity | reflexivity |].
  cbn [ListSort.count_run].
  inversion Hgood as [|? ? Ha Hrest]; subst.
  inversion Hrest as [|? ? Hb Hl]; subst.
  inversion Hsorted as [|? ? Htail Hhd]; subst.
  inversion Hhd as [|? ? Hle]; subst. unfold key_le in Hle.
  rewrite (ordered b a Hb Ha); cbn [bind].
  apply Z.ltb_ge in Hle. rewrite Hle.
  rewrite (take_run_whole b l Hrest Htail). reflexivity.
Qed.

End SortOrdered.

(** ** The sort of the timeline *)

Lemma date_lt_naive (x y : string * Timestamp) :
  tz_naive (snd x) -> tz_naive (snd y) ->
  date_lt x y = Return (date_key x <? date_key y)%Z.
Proof.
  unfold date_lt, date_key.
  destruct (snd x), (snd y); simpl; intros Hx Hy; try contradiction; reflexivity.
Qed.

Lemma date_lt_aware (x y : string * Timestamp) :
  tz_aware (snd x) -> tz_aware (snd y) ->
  date_lt x y = Return (date_key x <? date_key y)%Z.
Proof.
  unfold date_lt, date_key.
  destruct (snd x), (snd y); simpl; intros Hx Hy; try contradiction; reflexivity.
Qed.

Lemma date_lt_same_kind (x y : string * Timestamp) (b : bool) :
  snd x <> NaT -> snd y <> NaT -> date_lt x y = Return b -> same_kind x y.
Proof.
  unfold date_lt, same_kind.
  destruct (snd x), (snd y); simpl; intros Hx Hy H;
    try congruence; try discriminate H; tauto.
Qed.

Lemma date_lt_raises (x y : string * Timestamp) (e : exn) :
  date_lt x y = Raise e ->
  e = TypeError "Cannot compare tz-naive and tz-aware timestamps"
  /\ (tz_naive (snd x) /\ tz_aware (snd y) \/ tz_aware (snd x) /\ tz_naive (snd y)).
Proof.
  unfold date_lt.
  destruct (snd x), (snd y); simpl; intros H; try discriminate H;
    inversion H; subst; split; auto.
Qed.

Lemma key_le_date_le (good : Timestamp -> Prop) (l : list (string * Timestamp)) :
  (forall a b, good a -> good b -> (instant a <= instant b)%Z -> timestamp_le a b) ->
  Forall (fun x => good (snd x)) l ->
  StronglySorted (key_le date_key) l ->
  StronglySorted date_le l.
Proof.
  intros Hle Hgood Hsorted.
  induction Hsorted as [|x l Hl IH Hx]; [constructor|].
  inversion Hgood as [|? ? Hgx Hgl]; subst.
  constructor; [now apply IH|].
  rewrite Forall_forall in *.
  intros y Hy. apply Hle; [exact Hgx | now apply Hgl | now apply Hx].
Qed.

Lemma date_le_key_le (l : list (string * Timestamp)) :
  Sorted date_le l -> Sorted (key_le date_key) l.
Proof.
  induction 1 as [|x l Hl IH Hx]; constructor; [exact IH|].
  destruct Hx as [|y l Hxy]; constructor.
  unfold date_le in Hxy. unfold key_le, date_key.
  destruct (snd x), (snd y); simpl in *; try contradiction; exact Hxy.
Qed.

Lemma sort_by_date_kind (kind : Timestamp -> Prop) (l : list (string * Timestamp)) :
  (forall x y, kind (snd x) -> kind (snd y) ->
               date_lt x y = Return (date_key x <? date_key y)%Z) ->
  (forall a b, kind a -> kind b -> (instant a <= instant b)%Z -> timestamp_le a b) ->
  Forall (fun x => kind (snd x)) l ->
  exists out,
    sort_by_date l = Return out
    /\ Permutation l out
    /\ StronglySorted date_le out
    /\ (forall t, filter (key_is date_key t) out = filter (key_is date_key t) l)
    /\ (Sorted date_le l -> out = l).
Proof.
  intros Hlt Hle Hall. unfold sort_by_date.
  destruct (sort_ordered date_lt (fun x => kind (snd x)) date_key Hlt l Hall)
    as (out & Hout & Hsorted & Hstable).
  exists out. split; [exact Hout|].
  pose proof (sort_perm date_lt l out Hout) as Hperm.
  split; [exact Hperm|]. split; [|split; [exact Hstable|]].
  - apply (key_le_date_le kind); [exact Hle | | exact Hsorted].
    eapply Permutation_Forall; eauto.
  - intros Hasc.
    pose proof (sort_ascending date_lt (fun x => kind (snd x)) date_key Hlt l Hall
                  (date_le_key_le l Hasc)) as Hid.
    congruence.
Qed.

(** When the dates are comparable, the sort returns the items in
    ascending order of the date, those of one date in their order in the
    list; a list already in ascending order is returned as it is. *)
Lemma sort_by_date_comparable (l : list (string * Timestamp)) :
  comparable (map snd l) ->
  exists out,
    sort_by_date l = Return out
    /\ Permutation l out
    /\ StronglySorted date_le out
    /\ (forall t, filter (key_is date_key t) out = filter (key_is date_key t) l)
    /\ (Sorted date_le l -> out = l).
Proof.
  intros [H | H]; rewrite Forall_map in H.
  - apply (sort_by_date_kind tz_naive); [apply date_lt_naive | | exact H].
    intros [| |] [| |]; cbn [tz_naive tz_aware instant timestamp_le];
      intros; try contradiction; assumption.
  - apply (sort_by_date_kind tz_aware); [apply date_lt_aware | | exact H].
    intros [| |] [| |]; cbn [tz_naive tz_aware instant timestamp_le];
      intros; try contradiction; assumption.
Qed.

(** When no date is [NaT] and the sort returns, the dates were
    comparable. *)
Lemma sort_by_date_returned (l out : list (string * Timestamp)) :
  ~ In NaT (map snd l) ->
  sort_by_date l = Return out ->
  comparable (map snd l).
Proof.
  intros Hnat Hout.
  assert (Forall (fun x => snd x <> NaT) l) as Hgood.
  { apply Forall_forall. intros x Hx E. apply Hnat.
    rewrite <- E. now apply in_map. }
  assert (forall x y, In x l -> In y l -> same_kind x y) as Hsame.
  { apply (sort_related date_lt (fun x => snd x <> NaT) same_kind) with (out := out).
    - intros x. unfold same_kind. tauto.
    - intros x y. unfold same_kind. tauto.
    - intros x y z. unfold same_kind. tauto.
    - intros x y b. apply date_lt_same_kind.
    - exact Hout.
    - exact Hgood. }
  destruct l as [|x l]; [left; constructor|].
  unfold comparable.
  destruct (snd x) eqn:Ex.
  - exfalso. apply Hnat. simpl. now left.
  - left. apply Forall_map, Forall_forall. intros y Hy.
    apply (Hsame x y); [now left | exact Hy | now rewrite Ex].
  - right. apply Forall_map, Forall_forall. intros y Hy.
    rewrite Forall_forall in Hgood. specialize (Hgood y Hy).
    pose proof (Hsame x y (or_introl eq_refl) Hy) as Hk.
    unfold same_kind in Hk. rewrite Ex in Hk.
    destruct (snd y); simpl in *; tauto.
Qed.

(** The sort raises nothing but the error of a tz-naive date compared
    with a tz-aware one. *)
Lemma sort_by_date_raised (l : list (string * Timestamp)) (e : exn) :
  sort_by_date l = Raise e ->
  e = TypeError "Cannot compare tz-naive and tz-aware timestamps"
  /\ (exists t, In t (map snd l) /\ tz_naive t)
  /\ (exists t, In t (map snd l) /\ tz_aware t).
Proof.
  intros H. apply sort_raises in H as (x & y & Hx & Hy & Hlt).
  apply (in_map snd) in Hx, Hy.
  apply date_lt_raises in Hlt as (-> & [[Hn Ha] | [Ha Hn]]);
    (split; [reflexivity|]); split.
  - now exists (snd x).
  - now exists (snd y).
  - now exists (snd y).
  - now exists (snd x).
Qed.

(** ** Timeline renderer: the loop *)

Section Collect.

Variable to_datetime : string -> option Timestamp.
Variable r : Row.

Lemma parseable_cons (p : string * date_column) (pts : list (string * date_column)) :
  parseable to_datetime r (p :: pts) -> parseable to_datetime r pts.
Proof.
  intros H label col Hin G. apply (H label col); [now right | exact G].
Qed.

(** One turn of the loop on a date the guard rejects: nothing is added
    and nothing is raised. *)
Lemma collect_skip (label : string) (col : date_column)
    (rest : list (string * date_column)) (acc : list (string * Timestamp)) :
  guard (get r col) = false ->
  collect to_datetime ((label, col) :: rest) r acc = collect to_datetime rest r acc.
Proof.
  intros H; simpl. now rewrite H.
Qed.

(** When every date that passes the guard is a date, the loop returns
    the events in the order of the columns. *)
Lemma collect_events (pts : list (string * date_column)) (acc : list (string * Timestamp)) :
  parseable to_datetime r pts ->
  collect to_datetime pts r acc = Return (acc ++ events to_datetime r pts).
Proof.
  revert acc.
  induction pts as [|[label col] pts IH]; intros acc Hp; simpl.
  - now rewrite app_nil_r.
  - destruct (guard (get r col)) eqn:G.
    + unfold parse.
      destruct (to_datetime (str (get r col))) as [t|] eqn:T.
      * simpl. rewrite IH by (eapply parseable_cons; eauto).
        now rewrite <- app_assoc.
      * exfalso. apply (Hp label col); auto. now left.
    + apply IH. eapply parseable_cons; eauto.
Qed.

(** The first date that passes the guard and is not a date makes the
    loop raise. *)
Lemma collect_raises (before after : list (string * date_column))
    (label : string) (col : date_column) (acc : list (string * Timestamp)) :
  parseable to_datetime r before ->
  guard (get r col) = true ->
  to_datetime (str (get r col)) = None ->
  collect to_datetime (before ++ (label, col) :: after) r acc
  = Raise (DateParseError (str (get r col))).
Proof.
  revert acc.
  induction before as [|[l c] before IH]; intros acc Hp G T; simpl.
  - rewrite G. unfold parse. now rewrite T.
  - destruct (guard (get r c)) eqn:Gc.
    + unfold parse.
      destruct (to_datetime (str (get r c))) as [t|] eqn:Tc.
      * simpl. apply IH; auto. eapply parseable_cons; eauto.
      * exfalso. apply (Hp l c); auto. now left.
    + apply IH; auto. eapply parseable_cons; eauto.
Qed.

Lemma events_length (pts : list (string * date_column)) :
  parseable to_datetime r pts ->
  List.length (events to_datetime r pts) = List.length (present r pts).
Proof.
  induction pts as [|[label col] pts IH]; intros Hp; simpl; [reflexivity|].
  specialize (IH (parseable_cons _ _ Hp)).
  destruct (guard (get r col)) eqn:G; [|exact IH].
  destruct (to_datetime (str (get r col))) eqn:T.
  - simpl. now rewrite IH.
  - exfalso. apply (Hp label col); auto. now left.
Qed.

Lemma events_In (pts : list (string * date_column)) (label : string) (t : Timestamp) :
  In (label, t) (events to_datetime r pts) <->
  exists col,
    In (label, col) pts
    /\ ~ Wording.blank (get r col)
    /\ to_datetime (str (get r col)) = Some t.
Proof.
  unfold events. rewrite in_flat_map. split.
  - intros ([l col] & Hin & H); simpl in H.
    destruct (guard (get r col)) eqn:G; [|contradiction].
    destruct (to_datetime (str (get r col))) as [t'|] eqn:T; [|contradiction].
    destruct H as [H|[]]. inversion H; subst.
    exists col. repeat split; auto.
    rewrite <- guard_false_iff_blank. congruence.
  - intros (col & Hin & Hb & T).
    exists (label, col). split; [exact Hin|]. simpl.
    destruct (guard (get r col)) eqn:G.
    + rewrite T. now left.
    + apply Hb. now apply guard_false_iff_blank.
Qed.

End Collect.

(** ** Timeline renderer: the callback *)

Section Callback.

Variable to_datetime : string -> option Timestamp.
Variable df : DataFrame.

Lemma show_selected (cd : ClickData) (p : Point) (ps : list Point)
    (filter_values : list pyvalue) (r : Row) (rest : DataFrame) :
  points cd = Some (p :: ps) ->
  select_eq Address (or_ (hovertext p) (point_Address p))
    (filter_df df filter_values) = r :: rest ->
  show_timeline_chart to_datetime df (Some cd) filter_values
  = (timeline_data <- collect to_datetime timeline_points r [] ;;
     if (List.length timeline_data <? 2)%nat
     then Return (no_timeline r)
     else sorted_data <- sort_by_date timeline_data ;;
          Return (timeline_chart r sorted_data)).
Proof.
  unfold show_timeline_chart.
  intros -> ->. reflexivity.
Qed.

Lemma show_not_selected (cd : ClickData) (p : Point) (ps : list Point)
    (filter_values : list pyvalue) :
  points cd = Some (p :: ps) ->
  select_eq Address (or_ (hovertext p) (point_Address p))
    (filter_df df filter_values) = [] ->
  show_timeline_chart to_datetime df (Some cd) filter_values = Return no_data.
Proof.
  unfold show_timeline_chart.
  intros -> ->. reflexivity.
Qed.

Lemma show_with_point_not_prompt (cd : ClickData) (p : Point) (ps : list Point)
    (filter_values : list pyvalue) :
  points cd = Some (p :: ps) ->
  show_timeline_chart to_datetime df (Some cd) filter_values <> Return click_prompt.
Proof.
  intros Hp.
  destruct (select_eq Address (or_ (hovertext p) (point_Address p))
              (filter_df df filter_values)) as [|r rest] eqn:E.
  - rewrite (show_not_selected cd p ps filter_values Hp E). discriminate.
  - rewrite (show_selected cd p ps filter_values r rest Hp E).
    destruct (collect to_datetime timeline_points r []) as [evs|e]; cbn [bind].
    + destruct (List.length evs <? 2)%nat; [discriminate|].
      destruct (sort_by_date evs); discriminate.
    + discriminate.
Qed.

(** C3, as the code has it: a click whose address matches no row of the
    filtered table (a stale selection, or a row the filters now exclude)
    gives the placeholder "No data for this locker." and raises nothing.
    The prompt "Click a marker to see the timeline!" is returned exactly
    when there is no click payload or the payload has no point. *)
Theorem click_without_row (clickData : option ClickData) (filter_values : list pyvalue) :
  (forall cd p ps,
      clickData = Some cd ->
      points cd = Some (p :: ps) ->
      select_eq Address (or_ (hovertext p) (point_Address p))
        (filter_df df filter_values) = [] ->
      show_timeline_chart to_datetime df clickData filter_values
      = Return (Div [Text "No data for this locker."]))
  /\ (show_timeline_chart to_datetime df clickData filter_values
      = Return (Div [Div [Text "Click a marker to see the timeline!"]])
      <-> clickData = None
          \/ exists cd, clickData = Some cd /\ (points cd = None \/ points cd = Some [])).
Proof.
  split.
  - intros cd p ps -> Hp E.
    exact (show_not_selected cd p ps filter_values Hp E).
  - split.
    + intros H.
      destruct clickData as [cd|]; [right; exists cd; split; [reflexivity|] | now left].
      destruct (points cd) as [[|p ps]|] eqn:Hp; auto.
      exfalso. exact (show_with_point_not_prompt cd p ps filter_values Hp H).
    + intros [-> | (cd & -> & [Hp | Hp])]; unfold show_timeline_chart;
        try rewrite Hp; reflexivity.
Qed.

(** C6, as the code has it: an event whose date is missing or blank (no
    such column, an empty field, only white space, or the text "nan") is
    left out of the timeline without an error.  Every other date is given
    to the parser: when each of them is a date, the events collected are
    exactly those with a date that is present and parsed, in the order of
    the columns; the first one that is not a date is not left out but
    raises the parser's error. *)
Theorem collect_omits_blank (r : Row) :
  (forall label col rest timeline_data,
      Wording.blank (get r col) ->
      collect to_datetime ((label, col) :: rest) r timeline_data
      = collect to_datetime rest r timeline_data)
  /\ (parseable to_datetime r timeline_points ->
      collect to_datetime timeline_points r [] = Return (events to_datetime r timeline_points)
      /\ forall label t,
           In (label, t) (events to_datetime r timeline_points) <->
           exists col,
             In (label, col) timeline_points
             /\ ~ Wording.blank (get r col)
             /\ to_datetime (str (get r col)) = Some t)
  /\ (forall before label col after,
      timeline_points = before ++ (label, col) :: after ->
      parseable to_datetime r before ->
      ~ Wording.blank (get r col) ->
      to_datetime (str (get r col)) = None ->
      collect to_datetime timeline_points r []
      = Raise (DateParseError (str (get r col)))).
Proof.
  split; [|split].
  - intros label col rest acc Hb.
    apply collect_skip. now apply guard_false_iff_blank.
  - intros Hp. split.
    + exact (collect_events to_datetime r timeline_points [] Hp).
    + intros label t. apply events_In.
  - intros before label col after E Hp Hb T.
    rewrite E. apply collect_raises; auto.
    destruct (guard (get r col)) eqn:G; [reflexivity|].
    exfalso. apply Hb. now apply guard_false_iff_blank.
Qed.

(** C7, as the code has it: when the selected row has fewer than two
    dates that are present, and each present one is a date, the callback
    returns the placeholder that names the locker and says "No timeline
    available for this locker.", not a chart. *)
Theorem few_dates_no_timeline (cd : ClickData) (p : Point) (ps : list Point)
    (filter_values : list pyvalue) (r : Row) (rest : DataFrame) :
  points cd = Some (p :: ps) ->
  select_eq Address (or_ (hovertext p) (point_Address p))
    (filter_df df filter_values) = r :: rest ->
  parseable to_datetime r timeline_points ->
  (List.length (present r timeline_points) < 2)%nat ->
  show_timeline_chart to_datetime df (Some cd) filter_values
  = Return (Div [H4 (locker_title r);
                 Div [Text "No timeline available for this locker."]]).
Proof.
  intros Hp E Hparse Hfew.
  rewrite (show_selected cd p ps filter_values r rest Hp E).
  rewrite (collect_events to_datetime r timeline_points [] Hparse).
  cbn [bind app].
  rewrite (events_length to_datetime r timeline_points Hparse).
  apply Nat.ltb_lt in Hfew. now rewrite Hfew.
Qed.

(** C4, as the code has it: when the selected row has at least two
    event timestamps, each of them read by the parser as a time (none is
    [NaT]) and all of them tz-naive or all of them tz-aware, the chart
    lists its events in ascending order of timestamp: the steps and dates
    given to the chart are a rearrangement of the row's events that is
    sorted on the date, whatever the order of the labels Delivery,
    Receive, Withdraw, Expire in which they were collected. *)
Theorem timeline_is_chronological (cd : ClickData) (p : Point) (ps : list Point)
    (filter_values : list pyvalue) (r : Row) (rest : DataFrame) :
  points cd = Some (p :: ps) ->
  select_eq Address (or_ (hovertext p) (point_Address p))
    (filter_df df filter_values) = r :: rest ->
  parseable to_datetime r timeline_points ->
  (2 <= List.length (present r timeline_points))%nat ->
  comparable (map snd (events to_datetime r timeline_points)) ->
  exists timeline_data,
    show_timeline_chart to_datetime df (Some cd) filter_values
    = Return (Div [H4 (locker_title r);
                   Graph {| Step := map fst timeline_data;
                            Date := map snd timeline_data |}])
    /\ Permutation (events to_datetime r timeline_points) timeline_data
    /\ StronglySorted date_le timeline_data.
Proof.
  intros Hp E Hparse Hmany Hcomp.
  destruct (sort_by_date_comparable (events to_datetime r timeline_points) Hcomp)
    as (out & Hout & Hperm & Hsorted & _).
  exists out.
  split; [|split; [exact Hperm | exact Hsorted]].
  rewrite (show_selected cd p ps filter_values r rest Hp E).
  rewrite (collect_events to_datetime r timeline_points [] Hparse).
  cbn [bind app].
  rewrite (events_length to_datetime r timeline_points Hparse).
  apply Nat.ltb_ge in Hmany. rewrite Hmany, Hout. reflexivity.
Qed.

End Callback.

(** ** The callback on the sample table *)

(** Settles [parseable] on a row of the sample, column by column. *)
Ltac parseable_by_cases :=
  let label := fresh "label" in
  let col := fresh "col" in
  let Hin := fresh "Hin" in
  let G := fresh "G" in
  intros label col Hin G; simpl in Hin;
  repeat (destruct Hin as [Hin|Hin];
          [inversion Hin; subst;
           first [vm_compute in G; discriminate G | vm_compute; discriminate]|]);
  contradiction.

Lemma main_st_parseable : parseable Iso.to_datetime Sample.main_st timeline_points.
Proof. parseable_by_cases. Qed.

Lemma oak_ave_parseable : parseable Iso.to_datetime Sample.oak_ave timeline_points.
Proof. parseable_by_cases. Qed.

Lemma elm_rd_parseable : parseable Iso.to_datetime Sample.elm_rd timeline_points.
Proof. parseable_by_cases. Qed.

(** The dates of the specification's example, Delivery 2024-03-01,
    Receive 2024-03-05, Withdraw 2024-03-07, Expire 2024-03-10. *)
Example timeline_of_main_st :
  show_timeline_chart Iso.to_datetime Sample.df (Sample.click "1 Main St") Sample.all_filters
  = Return (Div [H4 (Str "Main Street Locker");
                 Graph {| Step := ["Delivery"; "Receive"; "Withdraw"; "Expire"];
                          Date := [Naive 1709251200000000000; Naive 1709596800000000000;
                                   Naive 1709769600000000000; Naive 1710028800000000000] |}]).
Proof. reflexivity. Qed.

(** A withdrawal recorded before the receipt comes before it. *)
Example timeline_of_oak_ave :
  show_timeline_chart Iso.to_datetime Sample.df (Sample.click "2 Oak Ave") Sample.all_filters
  = Return (Div [H4 (Str "2 Oak Ave");
                 Graph {| Step := ["Delivery"; "Withdraw"; "Receive"; "Expire"];
                          Date := [Naive 1709251200000000000; Naive 1709510400000000000;
                                   Naive 1709942400000000000; Naive 1710028800000000000] |}]).
Proof. reflexivity. Qed.

Lemma timeline_is_chronological_witness :
  (points {| points := Some [{| hovertext := Some "2 Oak Ave"; point_Address := None |}] |}
   = Some [{| hovertext := Some "2 Oak Ave"; point_Address := None |}]
   /\ select_eq Address (or_ (Some "2 Oak Ave") None) (filter_df Sample.df Sample.all_filters)
      = [Sample.oak_ave]
   /\ parseable Iso.to_datetime Sample.oak_ave timeline_points
   /\ (2 <= List.length (present Sample.oak_ave timeline_points))%nat
   /\ comparable (map snd (events Iso.to_datetime Sample.oak_ave timeline_points)))
  /\ exists timeline_data,
       show_timeline_chart Iso.to_datetime Sample.df (Sample.click "2 Oak Ave")
         Sample.all_filters
       = Return (Div [H4 (locker_title Sample.oak_ave);
                      Graph {| Step := map fst timeline_data;
                               Date := map snd timeline_data |}])
       /\ Permutation (events Iso.to_datetime Sample.oak_ave timeline_points) timeline_data
       /\ StronglySorted date_le timeline_data.
Proof.
  assert (2 <= List.length (present Sample.oak_ave timeline_points))%nat as Hmany
    by (vm_compute; lia).
  assert (comparable (map snd (events Iso.to_datetime Sample.oak_ave timeline_points)))
    as Hcomp by (left; vm_compute; repeat constructor).
  split.
  - split; [reflexivity|]. split; [reflexivity|].
    split; [exact oak_ave_parseable|]. split; [exact Hmany | exact Hcomp].
  - exact (timeline_is_chronological Iso.to_datetime Sample.df
             {| points := Some [{| hovertext := Some "2 Oak Ave"; point_Address := None |}] |}
             {| hovertext := Some "2 Oak Ave"; point_Address := None |} []
             Sample.all_filters Sample.oak_ave [] eq_refl eq_refl oak_ave_parseable
             Hmany Hcomp).
Defined.

(** C4, as the specification words it, fails on rows with at least two
    present event timestamps.  With a third text that is not a date the
    callback raises and renders nothing.  With the text "NaT" between
    2024-03-05 and 2024-03-01 the chart keeps that order, the later date
    first.  With a tz-naive date and a tz-aware one the sort raises. *)
Lemma timeline_not_always_chronological :
  ((2 <= List.length (present Sample.birch_way timeline_points))%nat
   /\ show_timeline_chart Iso.to_datetime Sample.odd_dates (Sample.click "6 Birch Way")
        Sample.all_filters
      = Raise (DateParseError "next week"))
  /\ ((2 <= List.length (present Sample.cedar_st timeline_points))%nat
      /\ show_timeline_chart Iso.to_datetime Sample.odd_dates (Sample.click "7 Cedar St")
           Sample.all_filters
         = Return (Div [H4 (Str "7 Cedar St");
                        Graph {| Step := ["Delivery"; "Receive"; "Withdraw"];
                                 Date := [Naive 1709596800000000000; NaT;
                                          Naive 1709251200000000000] |}])
      /\ (1709251200000000000 < 1709596800000000000)%Z)
  /\ ((2 <= List.length (present Sample.maple_dr timeline_points))%nat
      /\ show_timeline_chart Iso.to_datetime Sample.odd_dates (Sample.click "8 Maple Dr")
           Sample.all_filters
         = Raise (TypeError "Cannot compare tz-naive and tz-aware timestamps")).
Proof.
  split; [|split]; split; try (vm_compute; lia); try reflexivity.
  split; [reflexivity | lia].
Qed.

Lemma few_dates_no_timeline_witness :
  (select_eq Address (or_ (Some "3 Elm Rd") None) (filter_df Sample.df Sample.queens_only)
   = [Sample.elm_rd]
   /\ parseable Iso.to_datetime Sample.elm_rd timeline_points
   /\ (List.length (present Sample.elm_rd timeline_points) < 2)%nat)
  /\ show_timeline_chart Iso.to_datetime Sample.df (Sample.click "3 Elm Rd") Sample.queens_only
     = Return (Div [H4 (Str "3 Elm Rd");
                    Div [Text "No timeline available for this locker."]]).
Proof.
  assert (List.length (present Sample.elm_rd timeline_points) < 2)%nat as Hfew
    by (vm_compute; lia).
  split.
  - repeat split; [exact elm_rd_parseable | exact Hfew].
  - exact (few_dates_no_timeline Iso.to_datetime Sample.df
             {| points := Some [{| hovertext := Some "3 Elm Rd"; point_Address := None |}] |}
             {| hovertext := Some "3 Elm Rd"; point_Address := None |} []
             Sample.queens_only Sample.elm_rd [] eq_refl eq_refl elm_rd_parseable Hfew).
Defined.

(** C7, as the specification words it, fails: the row of "4 Pine Ct" has
    one date that is present and parsed, and one text that is not a date;
    the callback does not return the placeholder, it raises. *)
Lemma one_date_and_a_text_raises :
  events Iso.to_datetime Sample.pine_ct timeline_points
  = [("Delivery", Naive 1709251200000000000)]
  /\ show_timeline_chart Iso.to_datetime Sample.df (Sample.click "4 Pine Ct") Sample.all_filters
     = Raise (DateParseError "next week")
  /\ show_timeline_chart Iso.to_datetime Sample.df (Sample.click "4 Pine Ct") Sample.all_filters
     <> Return (no_timeline Sample.pine_ct).
Proof.
  repeat split. discriminate.
Qed.

Lemma click_without_row_witness :
  (Sample.click "1 Main St"
   = Some {| points := Some [{| hovertext := Some "1 Main St"; point_Address := None |}] |}
   /\ select_eq Address (or_ (Some "1 Main St") None) (filter_df Sample.df Sample.queens_only) = [])
  /\ show_timeline_chart Iso.to_datetime Sample.df (Sample.click "1 Main St") Sample.queens_only
     = Return (Div [Text "No data for this locker."]).
Proof.
  split.
  - split; reflexivity.
  - exact (proj1 (click_without_row Iso.to_datetime Sample.df
                    (Sample.click "1 Main St") Sample.queens_only)
             {| points := Some [{| hovertext := Some "1 Main St"; point_Address := None |}] |}
             {| hovertext := Some "1 Main St"; point_Address := None |} []
             eq_refl eq_refl eq_refl).
Defined.

(** C3, as the specification words it, fails: the locker at "1 Main St"
    is clicked while the filters keep the borough Queens only; its
    address matches no row of the filtered table, and the callback
    returns "No data for this locker.", not the click prompt. *)
Lemma stale_click_is_not_prompt :
  select_eq Address (Some "1 Main St") (filter_df Sample.df Sample.queens_only) = []
  /\ show_timeline_chart Iso.to_datetime Sample.df (Sample.click "1 Main St") Sample.queens_only
     = Return (Div [Text "No data for this locker."])
  /\ show_timeline_chart Iso.to_datetime Sample.df (Sample.click "1 Main St") Sample.queens_only
     <> Return (Div [Div [Text "Click a marker to see the timeline!"]]).
Proof.
  repeat split. discriminate.
Qed.

Lemma collect_omits_blank_witness :
  (Wording.blank (get Sample.elm_rd Withdraw_Date)
   /\ collect Iso.to_datetime [("Withdraw", Withdraw_Date); ("Expire", Expire_Date)]
        Sample.elm_rd [("Delivery", Naive 1709251200000000000)]
      = collect Iso.to_datetime [("Expire", Expire_Date)]
          Sample.elm_rd [("Delivery", Naive 1709251200000000000)])
  /\ (parseable Iso.to_datetime Sample.elm_rd timeline_points
      /\ collect Iso.to_datetime timeline_points Sample.elm_rd []
         = Return (events Iso.to_datetime Sample.elm_rd timeline_points))
  /\ (timeline_points
      = [("Delivery", Delivery_Date)] ++ ("Receive", Receive_Date)
          :: [("Withdraw", Withdraw_Date); ("Expire", Expire_Date)]
      /\ parseable Iso.to_datetime Sample.pine_ct [("Delivery", Delivery_Date)]
      /\ ~ Wording.blank (get Sample.pine_ct Receive_Date)
      /\ Iso.to_datetime (str (get Sample.pine_ct Receive_Date)) = None
      /\ collect Iso.to_datetime timeline_points Sample.pine_ct []
         = Raise (DateParseError "next week")).
Proof.
  assert (Wording.blank (get Sample.elm_rd Withdraw_Date)) as Hblank
    by (left; reflexivity).
  assert (parseable Iso.to_datetime Sample.pine_ct [("Delivery", Delivery_Date)]) as Hbefore
    by parseable_by_cases.
  assert (~ Wording.blank (get Sample.pine_ct Receive_Date)) as Hpresent
    by (intros [H|H]; vm_compute in H; discriminate H).
  split; [|split].
  - split; [exact Hblank|].
    exact (proj1 (collect_omits_blank Iso.to_datetime Sample.elm_rd)
             "Withdraw" Withdraw_Date [("Expire", Expire_Date)]
             [("Delivery", Naive 1709251200000000000)] Hblank).
  - split; [exact elm_rd_parseable|].
    exact (proj1 (proj1 (proj2 (collect_omits_blank Iso.to_datetime Sample.elm_rd))
                    elm_rd_parseable)).
  - split; [reflexivity|].
    split; [exact Hbefore|].
    split; [exact Hpresent|].
    split; [reflexivity|].
    exact (proj2 (proj2 (collect_omits_blank Iso.to_datetime Sample.pine_ct))
             [("Delivery", Delivery_Date)] "Receive" Receive_Date
             [("Withdraw", Withdraw_Date); ("Expire", Expire_Date)]
             eq_refl Hbefore Hpresent eq_refl).
Defined.

(** C6, as the specification words it, fails: in the row of "4 Pine Ct"
    the receive date is the text "next week", which is present and is not
    a date; the event is not left out, the loop raises. *)
Lemma unparseable_date_is_not_omitted :
  get Sample.pine_ct Receive_Date = Some (Str "next week")
  /\ guard (get Sample.pine_ct Receive_Date) = true
  /\ Iso.to_datetime "next week" = None
  /\ collect Iso.to_datetime timeline_points Sample.pine_ct []
     = Raise (DateParseError "next week")
  /\ forall timeline_data,
       collect Iso.to_datetime timeline_points Sample.pine_ct [] <> Return timeline_data.
Proof.
  repeat split. discriminate.
Qed.

(** * Further properties *)

(** ** Filter engine: composition and edges *)

Lemma filter_and {A : Type} (f g : A -> bool) (l : list A) :
  filter f (filter g l) = filter (fun a => g a && f a) l.
Proof.
  induction l as [|a l IH]; simpl; [reflexivity|].
  destruct (g a); simpl; [destruct (f a)|]; congruence.
Qed.

Lemma filter_same {A : Type} (f g : A -> bool) (l : list A) :
  (forall a, In a l -> f a = g a) -> filter f l = filter g l.
Proof.
  induction l as [|a l IH]; simpl; intros H; [reflexivity|].
  rewrite (H a (or_introl eq_refl)), IH; auto.
Qed.

Lemma narrows_passes (r : Row) (cols : list column) (tight loose : list pyvalue) :
  narrows tight loose ->
  forallb (satisfiesb r) (combine cols tight) = true ->
  forallb (satisfiesb r) (combine cols loose) = true.
Proof.
  intros H; revert cols.
  induction H as [|t l tight loose Htl _ IH]; intros [|col cols]; simpl; auto.
  rewrite !andb_true_iff. intros [Ht Hrest].
  split; [|now apply IH].
  destruct Htl as [Hw | ->]; [|exact Ht].
  unfold satisfiesb; simpl. now rewrite Hw.
Qed.

(** Filters compose: filtering the result of one selection by another
    keeps the rows that pass both, whichever is applied first. *)
Theorem filter_df_compose (df : DataFrame) (first second : list pyvalue) :
  filter_df (filter_df df first) second = filter_df (filter_df df second) first
  /\ forall r,
       In r (filter_df (filter_df df first) second) <->
       In r (filter_df df first) /\ In r (filter_df df second).
Proof.
  unfold filter_df. rewrite !filter_loop_filter, !filter_and.
  split.
  - apply filter_same. intros r _. apply andb_comm.
  - intros r. rewrite !filter_In, andb_true_iff. tauto.
Qed.

(** Narrowing a selection can be done on the rows already filtered: when
    [tight] holds the value of [loose] in every column that [loose]
    constrains, filtering the result of [loose] by [tight] gives what
    [tight] gives on the whole table, and that is part of the result of
    [loose]. *)
Theorem filter_df_narrow (df : DataFrame) (tight loose : list pyvalue) :
  narrows tight loose ->
  filter_df (filter_df df loose) tight = filter_df df tight
  /\ incl (filter_df df tight) (filter_df df loose).
Proof.
  intros H. unfold filter_df. rewrite !filter_loop_filter, filter_and.
  split.
  - apply filter_same. intros r _.
    destruct (forallb (satisfiesb r) (combine filter_columns tight)) eqn:T.
    + now rewrite (narrows_passes r filter_columns tight loose H T).
    + apply andb_false_r.
  - intros r. rewrite !filter_In. intros [Hin T].
    split; [exact Hin|].
    exact (narrows_passes r filter_columns tight loose H T).
Qed.

Lemma filter_df_narrow_witness :
  narrows [None; None; Some "Queens"; Some "M"; None] [None; None; Some "Queens"; None; None]
  /\ filter_df (filter_df Sample.df [None; None; Some "Queens"; None; None])
       [None; None; Some "Queens"; Some "M"; None]
     = filter_df Sample.df [None; None; Some "Queens"; Some "M"; None].
Proof.
  assert (narrows [None; None; Some "Queens"; Some "M"; None]
            [None; None; Some "Queens"; None; None]) as H.
  { unfold narrows.
    repeat (apply Forall2_cons; [first [left; reflexivity | right; reflexivity]|]).
    apply Forall2_nil. }
  split; [exact H|].
  exact (proj1 (filter_df_narrow Sample.df _ _ H)).
Defined.

Lemma combine_firstn {A B : Type} (l : list A) (l' : list B) :
  combine l (firstn (List.length l) l') = combine l l'.
Proof.
  revert l'. induction l as [|a l IH]; intros [|b l']; simpl; congruence.
Qed.

Lemma filter_loop_pad (cols : list column) (args : list pyvalue) (n : nat) (dff : DataFrame) :
  filter_loop (combine cols (args ++ repeat None n)) dff
  = filter_loop (combine cols args) dff.
Proof.
  revert cols dff.
  induction args as [|v args IH]; intros cols dff.
  - simpl. rewrite combine_nil. simpl. revert cols dff.
    induction n as [|n IHn]; intros [|col cols] dff; simpl; auto.
  - destruct cols as [|col cols]; simpl; auto.
Qed.

(** [zip] decides what a list of another length means: values beyond the
    fifth are ignored, and a column that has no value is not
    constrained, as if its value were [None]. *)
Theorem filter_df_zip (df : DataFrame) (args : list pyvalue) :
  filter_df df args = filter_df df (firstn 5 args)
  /\ forall n, filter_df df (args ++ repeat None n) = filter_df df args.
Proof.
  unfold filter_df. split.
  - symmetry.
    exact (f_equal (fun pairs => filter_loop pairs df)
             (combine_firstn filter_columns args)).
  - intros n. apply filter_loop_pad.
Qed.

(** A row with an empty field in a column is returned by no selection
    that constrains that column. *)
Theorem filter_df_drops_nan (df : DataFrame) (args : list pyvalue)
    (col : column) (v : pyvalue) (r : Row) :
  In (col, v) (combine filter_columns args) ->
  not_in_wildcards v = true ->
  getitem r col = NaN ->
  ~ In r (filter_df df args).
Proof.
  intros Hin Hv Hnan.
  unfold filter_df. rewrite filter_loop_filter, filter_In.
  intros [_ Hall].
  rewrite forallb_forall in Hall.
  specialize (Hall (col, v) Hin).
  unfold satisfiesb in Hall; simpl in Hall.
  rewrite Hv, Hnan in Hall. discriminate Hall.
Qed.

Lemma filter_df_drops_nan_witness :
  (In (Borough, Some "Queens") (combine filter_columns Sample.queens_only)
   /\ not_in_wildcards (Some "Queens") = true
   /\ getitem Sample.ash_ln Borough = NaN)
  /\ ~ In Sample.ash_ln (filter_df (Sample.ash_ln :: Sample.df) Sample.queens_only).
Proof.
  assert (In (Borough, Some "Queens") (combine filter_columns Sample.queens_only)) as Hin
    by (simpl; right; right; left; reflexivity).
  split.
  - split; [exact Hin | split; reflexivity].
  - exact (filter_df_drops_nan (Sample.ash_ln :: Sample.df) Sample.queens_only
             Borough (Some "Queens") Sample.ash_ln Hin eq_refl eq_refl).
Defined.

(** ** Sidebar: what the dropdowns offer *)

Lemma dropna_text_In (df : DataFrame) (col : column) (v : string) :
  In v (dropna_text (series df col)) <-> exists r, In r df /\ getitem r col = Str v.
Proof.
  unfold series.
  induction df as [|r df IH]; simpl.
  - split; [contradiction | intros (r & [] & _)].
  - destruct (getitem r col) as [|x] eqn:E; simpl; rewrite IH; split.
    + intros (r' & Hin & H). exists r'. auto.
    + intros (r' & [-> | Hin] & H); [congruence | exists r'; auto].
    + intros [-> | (r' & Hin & H)]; [exists r; auto | exists r'; auto].
    + intros (r' & [-> | Hin] & H); [left; congruence | right; exists r'; auto].
Qed.

Lemma unique_In (l : list string) (v : string) : In v (unique l) <-> In v l.
Proof.
  induction l as [|x l IH]; simpl; [tauto|].
  rewrite filter_In, negb_true_iff, String.eqb_neq, IH.
  destruct (String.eqb_spec x v) as [-> | N]; [tauto|].
  split; [tauto|]. intros [H | H]; [contradiction | right; split; auto].
Qed.

Lemma unique_NoDup (l : list string) : NoDup (unique l).
Proof.
  induction l as [|x l IH]; simpl; constructor.
  - rewrite filter_In, negb_true_iff, String.eqb_neq. intros [_ N]. now apply N.
  - now apply NoDup_filter.
Qed.

Lemma insert_sorted_perm (x : string) (l : list string) :
  Permutation (x :: l) (insert_sorted x l).
Proof.
  induction l as [|y l IH]; simpl; [reflexivity|].
  destruct (String.leb x y); [reflexivity|].
  rewrite perm_swap. now apply perm_skip.
Qed.

Lemma sorted_perm (l : list string) : Permutation l (sorted l).
Proof.
  induction l as [|x l IH]; simpl; [reflexivity|].
  rewrite <- insert_sorted_perm. now apply perm_skip.
Qed.

Lemma insert_sorted_Sorted (x : string) (l : list string) :
  Sorted str_le l -> Sorted str_le (insert_sorted x l).
Proof.
  induction 1 as [|y l Hl IH Hy]; simpl.
  - repeat constructor.
  - destruct (String.leb x y) eqn:E.
    + repeat constructor; auto.
    + assert (str_le y x) as Hyx.
      { destruct (String.leb_total x y) as [H | H]; [congruence | exact H]. }
      constructor; [exact IH|].
      destruct l as [|z l]; simpl; [now constructor|].
      destruct (String.leb x z); constructor; auto.
      now inversion Hy.
Qed.

Lemma sorted_Sorted (l : list string) : Sorted str_le (sorted l).
Proof.
  induction l as [|x l IH]; simpl; [constructor|].
  now apply insert_sorted_Sorted.
Qed.

Lemma offered_In (df : DataFrame) (col : column) (v : string) :
  In v (offered df col) <-> exists r, In r df /\ getitem r col = Str v.
Proof.
  unfold offered. split; intros H.
  - apply dropna_text_In, unique_In.
    eapply Permutation_in; [symmetry; apply sorted_perm | exact H].
  - eapply Permutation_in; [apply sorted_perm|].
    apply unique_In, dropna_text_In. exact H.
Qed.

(** Each filter dropdown starts at ["All"] and offers ["All"] first, then
    the values of its column: every text that some row of the table
    holds in that column and no other, each once, in ascending order;
    an empty field is never offered. *)
Theorem make_sidebar_options (df : DataFrame) :
  map (fun d => (dropdown_value d, map option_value (dropdown_options d)))
    (dropdowns (make_sidebar df))
  = map (fun col => ("All", "All" :: offered df col)) filter_columns
  /\ forall col,
       Sorted str_le (offered df col)
       /\ NoDup (offered df col)
       /\ forall v, In v (offered df col) <-> exists r, In r df /\ getitem r col = Str v.
Proof.
  split.
  - unfold make_sidebar; simpl.
    rewrite !map_map, !map_id. reflexivity.
  - intros col. split; [|split].
    + apply sorted_Sorted.
    + eapply Permutation_NoDup; [apply sorted_perm | apply unique_NoDup].
    + intros v. apply offered_In.
Qed.

Lemma satisfiesb_value (r : Row) (col : column) (v : string) :
  v <> "All" ->
  satisfiesb r (col, Some v) = cell_eqb (getitem r col) (Some v).
Proof.
  intros Hv. unfold satisfiesb, not_in_wildcards; simpl snd; simpl fst.
  cbn [existsb pyvalue_eqb].
  apply String.eqb_neq in Hv. now rewrite Hv.
Qed.

Lemma pick_passes (r : Row) (col : column) (v : string) :
  In col filter_columns ->
  v <> "All" ->
  forallb (satisfiesb r) (combine filter_columns (pick col v))
  = cell_eqb (getitem r col) (Some v).
Proof.
  intros Hin Hv.
  assert (forall c, satisfiesb r (c, Some "All") = true) as Hall by reflexivity.
  destruct col;
    [change (pick Type_ v) with [Some v; Some "All"; Some "All"; Some "All"; Some "All"]
    |change (pick Location_Type v) with [Some "All"; Some v; Some "All"; Some "All"; Some "All"]
    |change (pick Borough v) with [Some "All"; Some "All"; Some v; Some "All"; Some "All"]
    |change (pick Locker_Size v) with [Some "All"; Some "All"; Some "All"; Some v; Some "All"]
    |change (pick Status v) with [Some "All"; Some "All"; Some "All"; Some "All"; Some v]
    |exfalso; simpl in Hin; intuition discriminate];
    cbn [combine filter_columns forallb];
    rewrite !Hall, (satisfiesb_value r _ v Hv);
    cbn [andb]; rewrite ?andb_true_r; reflexivity.
Qed.

(** Picking a value in one dropdown, the others left at ["All"], returns
    exactly the rows that hold this value in that column; the result has
    a row exactly when the value is one the dropdown offers. *)
Theorem pick_offered (df : DataFrame) (col : column) (v : string) :
  In col filter_columns ->
  v <> "All" ->
  (forall r, In r (filter_df df (pick col v)) <-> In r df /\ getitem r col = Str v)
  /\ (In v (offered df col) <-> filter_df df (pick col v) <> []).
Proof.
  intros Hin Hv.
  assert (forall r, In r (filter_df df (pick col v)) <-> In r df /\ getitem r col = Str v)
    as Hrows.
  { intros r. unfold filter_df.
    rewrite filter_loop_filter, filter_In, (pick_passes r col v Hin Hv).
    unfold cell_eqb. destruct (getitem r col) as [|x].
    - split; intros [_ H]; discriminate H.
    - rewrite String.eqb_eq. split; intros [H1 H2]; split; congruence. }
  split; [exact Hrows|].
  rewrite offered_In.
  split.
  - intros (r & Hr) E. apply (proj2 (Hrows r)) in Hr. rewrite E in Hr. exact Hr.
  - intros Hne. destruct (filter_df df (pick col v)) as [|r rest] eqn:E; [contradiction|].
    exists r. apply (proj1 (Hrows r)). now left.
Qed.

Lemma pick_offered_witness :
  (In Borough filter_columns /\ "Queens" <> "All")
  /\ (In "Queens" (offered Sample.df Borough)
      <-> filter_df Sample.df (pick Borough "Queens") <> []).
Proof.
  assert (In Borough filter_columns) as Hin by (simpl; auto).
  assert ("Queens" <> "All") as Hv by discriminate.
  split; [split; [exact Hin | exact Hv]|].
  exact (proj2 (pick_offered Sample.df Borough "Queens" Hin Hv)).
Defined.

(** ** Dataset loader: the values of the derived column *)

Lemma bubble_size_cases (locker_size : cell) :
  In (bubble_size locker_size) [10; 14; 22; 32; 42]%Z.
Proof.
  unfold bubble_size, map_size_map.
  destruct (str_extract (astype_str locker_size)) as [key|]; [|simpl; auto].
  unfold size_map; cbn [dict_get].
  destruct (String.eqb "S" key); [simpl; auto|].
  destruct (String.eqb "M" key); [simpl; auto|].
  destruct (String.eqb "L" key); [simpl; auto|].
  destruct (String.eqb "XL" key); simpl; auto 6.
Qed.

(** Whatever a row holds as its locker size, a text or an empty field,
    its entry in ["Bubble Size"] is one of 10, 14, 22, 32 and 42: it is
    never missing and never zero or negative, and it is above the default
    10 only when the text holds one of the letters S, M, L, X. *)
Theorem bubble_size_values (locker_size : cell) :
  In (bubble_size locker_size) [10; 14; 22; 32; 42]%Z
  /\ (10 <= bubble_size locker_size <= 42)%Z
  /\ (bubble_size locker_size <> 10%Z ->
      exists s, locker_size = Str s
                /\ Regex.all_chars (Regex.outside SMLX) s = false).
Proof.
  pose proof (bubble_size_cases locker_size) as H.
  split; [exact H|]. split.
  - simpl in H. intuition lia.
  - intros Hne. destruct locker_size as [|s]; [now contradiction Hne|].
    exists s. split; [reflexivity|].
    destruct (Regex.all_chars (Regex.outside SMLX) s) eqn:E; [|reflexivity].
    exfalso. apply Hne.
    unfold bubble_size, str_extract; simpl astype_str.
    now rewrite (search_none SMLX s E).
Qed.

Lemma bubble_size_values_witness :
  bubble_size (Str "Extra Large") <> 10%Z
  /\ exists s, Str "Extra Large" = Str s
               /\ Regex.all_chars (Regex.outside SMLX) s = false.
Proof.
  assert (bubble_size (Str "Extra Large") <> 10%Z) as Hne by discriminate.
  split; [exact Hne|].
  exact (proj2 (proj2 (bubble_size_values (Str "Extra Large"))) Hne).
Defined.

(** ** Timeline renderer: every outcome of the callback *)

Section Outcomes.

Variable to_datetime : string -> option Timestamp.

Lemma parseable_cons_intro (r : Row) (label : string) (col : date_column)
    (pts : list (string * date_column)) :
  (guard (get r col) = true -> to_datetime (str (get r col)) <> None) ->
  parseable to_datetime r pts ->
  parseable to_datetime r ((label, col) :: pts).
Proof.
  intros Hhead Hrest l c [Heq | Hin] G.
  - inversion Heq; subst. now apply Hhead.
  - now apply (Hrest l c).
Qed.

(** Either every date that passes the guard is a date, or there is a
    first one that is not. *)
Lemma parseable_or_first (r : Row) (pts : list (string * date_column)) :
  parseable to_datetime r pts
  \/ exists before label col after,
       pts = before ++ (label, col) :: after
       /\ parseable to_datetime r before
       /\ guard (get r col) = true
       /\ to_datetime (str (get r col)) = None.
Proof.
  induction pts as [|[label col] pts IH].
  - left. intros l c [].
  - destruct (guard (get r col)) eqn:G.
    + destruct (to_datetime (str (get r col))) as [t|] eqn:T.
      * destruct IH as [IH | (before & l & c & after & -> & Hb & Hg & Ht)].
        -- left. apply parseable_cons_intro; [congruence | exact IH].
        -- right. exists ((label, col) :: before), l, c, after.
           repeat split; auto.
           apply parseable_cons_intro; [congruence | exact Hb].
      * right. exists [], label, col, pts.
        repeat split; auto. intros l c [].
    + destruct IH as [IH | (before & l & c & after & -> & Hb & Hg & Ht)].
      * left. apply parseable_cons_intro; [congruence | exact IH].
      * right. exists ((label, col) :: before), l, c, after.
        repeat split; auto.
        apply parseable_cons_intro; [congruence | exact Hb].
Qed.

Lemma events_labels (r : Row) (pts : list (string * date_column)) (label : string) :
  In label (map fst (events to_datetime r pts)) -> In label (map fst pts).
Proof.
  induction pts as [|[l c] pts IH]; simpl; [auto|].
  destruct (guard (get r c)); [|auto].
  destruct (to_datetime (str (get r c))); simpl; [|auto].
  intros [H | H]; auto.
Qed.

Lemma events_NoDup (r : Row) (pts : list (string * date_column)) :
  NoDup (map fst pts) -> NoDup (map fst (events to_datetime r pts)).
Proof.
  induction pts as [|[l c] pts IH]; simpl; intros H; [constructor|].
  inversion H as [|? ? Hnotin Hrest]; subst.
  destruct (guard (get r c)); [|auto].
  destruct (to_datetime (str (get r c))); simpl; [|auto].
  constructor; [|auto].
  intros Hin. apply Hnotin. now apply events_labels in Hin.
Qed.

Lemma events_at_most (r : Row) (pts : list (string * date_column)) :
  (List.length (events to_datetime r pts) <= List.length pts)%nat.
Proof.
  unfold events.
  induction pts as [|[l c] pts IH]; simpl; [lia|].
  destruct (guard (get r c)); simpl; [|lia].
  destruct (to_datetime (str (get r c))); simpl; lia.
Qed.

Lemma dates_ascending (l : list (string * Timestamp)) :
  StronglySorted date_le l -> StronglySorted timestamp_le (map snd l).
Proof.
  induction 1 as [|x l Hl IH Hx]; simpl; constructor; [exact IH|].
  apply Forall_forall. intros t Ht.
  apply in_map_iff in Ht as (y & <- & Hy).
  rewrite Forall_forall in Hx. exact (Hx y Hy).
Qed.

Variable df : DataFrame.

(** What the callback does once a point is given: no row, or the loop on
    the first row found. *)
Lemma show_cases (clickData : option ClickData) (filter_values : list pyvalue) :
  show_timeline_chart to_datetime df clickData filter_values = Return click_prompt
  \/ show_timeline_chart to_datetime df clickData filter_values = Return no_data
  \/ exists cd p ps r rest,
       clickData = Some cd
       /\ points cd = Some (p :: ps)
       /\ select_eq Address (or_ (hovertext p) (point_Address p))
            (filter_df df filter_values) = r :: rest
       /\ show_timeline_chart to_datetime df clickData filter_values
          = (timeline_data <- collect to_datetime timeline_points r [] ;;
             if (List.length timeline_data <? 2)%nat
             then Return (no_timeline r)
             else sorted_data <- sort_by_date timeline_data ;;
                  Return (timeline_chart r sorted_data)).
Proof.
  destruct clickData as [cd|]; [|now left].
  destruct (points cd) as [[|p ps]|] eqn:Hp;
    try (left; unfold show_timeline_chart; rewrite Hp; reflexivity).
  destruct (select_eq Address (or_ (hovertext p) (point_Address p))
              (filter_df df filter_values)) as [|r rest] eqn:E.
  - right. left. exact (show_not_selected to_datetime df cd p ps filter_values Hp E).
  - right. right. exists cd, p, ps, r, rest.
    repeat split; auto.
    exact (show_selected to_datetime df cd p ps filter_values r rest Hp E).
Qed.

(** The callback raises in two cases only, both after a point is clicked
    and a row is found for it.  Either one of the row's dates is present
    and is not a date: the error is the parser's, on the first such date
    in the order Delivery, Receive, Withdraw, Expire.  Or every present
    date is parsed, there are at least two, and the sort compares a
    tz-naive date with a tz-aware one: the error is the [TypeError] of
    that comparison.  The sort raises only when the row has dates of both
    kinds, and with dates of both kinds and no [NaT] it always does. *)
Theorem show_timeline_chart_raises_iff (clickData : option ClickData)
    (filter_values : list pyvalue) (e : exn) :
  (show_timeline_chart to_datetime df clickData filter_values = Raise e
   <-> exists cd p ps r rest,
         clickData = Some cd
         /\ points cd = Some (p :: ps)
         /\ select_eq Address (or_ (hovertext p) (point_Address p))
              (filter_df df filter_values) = r :: rest
         /\ ((exists before label col after,
                timeline_points = before ++ (label, col) :: after
                /\ parseable to_datetime r before
                /\ guard (get r col) = true
                /\ to_datetime (str (get r col)) = None
                /\ e = DateParseError (str (get r col)))
             \/ (parseable to_datetime r timeline_points
                 /\ (2 <= List.length (present r timeline_points))%nat
                 /\ sort_by_date (events to_datetime r timeline_points) = Raise e)))
  /\ (forall timeline_data,
        sort_by_date timeline_data = Raise e ->
        e = TypeError "Cannot compare tz-naive and tz-aware timestamps"
        /\ (exists t, In t (map snd timeline_data) /\ tz_naive t)
        /\ (exists t, In t (map snd timeline_data) /\ tz_aware t))
  /\ (forall timeline_data,
        ~ In NaT (map snd timeline_data) ->
        (exists t, In t (map snd timeline_data) /\ tz_naive t) ->
        (exists t, In t (map snd timeline_data) /\ tz_aware t) ->
        sort_by_date timeline_data
        = Raise (TypeError "Cannot compare tz-naive and tz-aware timestamps")).
Proof.
  split; [|split].
  - split.
    + intros H.
      destruct (show_cases clickData filter_values)
        as [Hs | [Hs | (cd & p & ps & r & rest & -> & Hp & E & Hs)]];
        try (rewrite Hs in H; discriminate H).
      rewrite Hs in H.
      exists cd, p, ps, r, rest.
      split; [reflexivity|]. split; [exact Hp|]. split; [exact E|].
      destruct (parseable_or_first r timeline_points)
        as [Hparse | (before & label & col & after & Hpts & Hb & Hg & Ht)].
      * right.
        rewrite (collect_events to_datetime r timeline_points [] Hparse) in H.
        cbn [bind app] in H.
        rewrite (events_length to_datetime r timeline_points Hparse) in H.
        destruct (List.length (present r timeline_points) <? 2)%nat eqn:L;
          [discriminate H|].
        apply Nat.ltb_ge in L.
        split; [exact Hparse|]. split; [exact L|].
        destruct (sort_by_date (events to_datetime r timeline_points)) as [out|e'];
          [discriminate H|].
        cbn [bind] in H. injection H as ->. reflexivity.
      * left. exists before, label, col, after.
        repeat split; auto.
        rewrite Hpts, (collect_raises to_datetime r before after label col [] Hb Hg Ht) in H.
        cbn [bind] in H. congruence.
    + intros (cd & p & ps & r & rest & -> & Hp & E & Hcase).
      rewrite (show_selected to_datetime df cd p ps filter_values r rest Hp E).
      destruct Hcase as [(before & label & col & after & Hpts & Hb & Hg & Ht & ->)
                         | (Hparse & Hmany & Hsort)].
      * rewrite Hpts, (collect_raises to_datetime r before after label col [] Hb Hg Ht).
        reflexivity.
      * rewrite (collect_events to_datetime r timeline_points [] Hparse).
        cbn [bind app].
        rewrite (events_length to_datetime r timeline_points Hparse).
        apply Nat.ltb_ge in Hmany. rewrite Hmany, Hsort. reflexivity.
  - intros timeline_data. apply sort_by_date_raised.
  - intros timeline_data Hnat (a & Ha & Hna) (b & Hb & Hab).
    destruct (sort_by_date timeline_data) as [out|e'] eqn:S.
    + exfalso.
      destruct (sort_by_date_returned timeline_data out Hnat S) as [Hall | Hall];
        rewrite Forall_forall in Hall.
      * specialize (Hall b Hb). destruct b; simpl in *; contradiction.
      * specialize (Hall a Ha). destruct a; simpl in *; contradiction.
    + f_equal. now apply (sort_by_date_raised timeline_data e').
Qed.

(** Every chart the callback returns has between two and four points,
    with as many labels as dates, and labels that are distinct and among
    Delivery, Receive, Withdraw and Expire; when none of its dates is
    [NaT], the dates are in ascending order. *)
Theorem show_timeline_chart_shape (clickData : option ClickData)
    (filter_values : list pyvalue) (title : cell) (figure : timeline_fig) :
  show_timeline_chart to_datetime df clickData filter_values
  = Return (Div [H4 title; Graph figure]) ->
  List.length (Step figure) = List.length (Date figure)
  /\ (2 <= List.length (Step figure) <= 4)%nat
  /\ NoDup (Step figure)
  /\ incl (Step figure) ["Delivery"; "Receive"; "Withdraw"; "Expire"]
  /\ (~ In NaT (Date figure) -> StronglySorted timestamp_le (Date figure)).
Proof.
  intros H.
  destruct (show_cases clickData filter_values)
    as [Hs | [Hs | (cd & p & ps & r & rest & -> & Hp & E & Hs)]];
    try (rewrite Hs in H; discriminate H).
  rewrite Hs in H.
  destruct (parseable_or_first r timeline_points)
    as [Hparse | (before & label & col & after & Hpts & Hb & Hg & Ht)].
  - rewrite (collect_events to_datetime r timeline_points [] Hparse) in H.
    cbn [bind app] in H.
    pose proof (events_at_most r timeline_points) as Hmost.
    assert (NoDup (map fst (events to_datetime r timeline_points))) as Hnodup.
    { apply events_NoDup. simpl.
      repeat constructor; simpl; intuition discriminate. }
    pose proof (events_labels r timeline_points) as Hlabels.
    remember (events to_datetime r timeline_points) as evs eqn:Hevs.
    destruct (List.length evs <? 2)%nat eqn:L; [discriminate H|].
    apply Nat.ltb_ge in L.
    destruct (sort_by_date evs) as [out|e] eqn:S; [|discriminate H].
    pose proof (sort_perm date_lt evs out S) as Hperm.
    cbn [bind] in H. unfold timeline_chart in H.
    injection H as _ Hfigure. subst figure. cbn [Step Date].
    rewrite !length_map.
    rewrite <- (Permutation_length Hperm).
    split; [reflexivity|].
    split; [simpl in Hmost; lia|].
    split; [|split].
    + eapply Permutation_NoDup; [apply Permutation_map; exact Hperm | exact Hnodup].
    + intros label Hin.
      apply (Permutation_in label (Permutation_sym (Permutation_map fst Hperm))) in Hin.
      exact (Hlabels label Hin).
    + intros Hnat.
      assert (~ In NaT (map snd evs)) as Hnat'.
      { intros Hin. apply Hnat.
        exact (Permutation_in NaT (Permutation_map snd Hperm) Hin). }
      pose proof (sort_by_date_returned evs out Hnat' S) as Hcomp.
      destruct (sort_by_date_comparable evs Hcomp) as (out' & S' & _ & Hsorted & _).
      assert (out' = out) as -> by congruence.
      now apply dates_ascending.
  - rewrite Hpts, (collect_raises to_datetime r before after label col [] Hb Hg Ht) in H.
    discriminate H.
Qed.

(** Only the first row found for the clicked address counts: when the
    filtered table holds several rows for it, or other rows around it,
    the callback returns what it returns on a table made of that first
    row alone.  So the timeline of a locker does not depend on the
    filters as long as its row stays the first one found. *)
Theorem show_timeline_chart_first_row (cd : ClickData) (p : Point) (ps : list Point)
    (filter_values : list pyvalue) (before after : DataFrame) (r : Row) :
  points cd = Some (p :: ps) ->
  filter_df df filter_values = before ++ r :: after ->
  (forall x, In x before ->
     cell_eqb (getitem x Address) (or_ (hovertext p) (point_Address p)) = false) ->
  cell_eqb (getitem r Address) (or_ (hovertext p) (point_Address p)) = true ->
  show_timeline_chart to_datetime df (Some cd) filter_values
  = show_timeline_chart to_datetime [r] (Some cd) [].
Proof.
  intros Hp Hdff Hbefore Hr.
  assert (select_eq Address (or_ (hovertext p) (point_Address p))
            (filter_df df filter_values)
          = r :: select_eq Address (or_ (hovertext p) (point_Address p)) after) as E.
  { rewrite Hdff. unfold select_eq. rewrite filter_app. cbn [filter]. rewrite Hr.
    replace (filter _ before) with (@nil Row); [reflexivity|].
    symmetry. clear Hdff. induction before as [|x before IH]; cbn [filter]; [reflexivity|].
    rewrite (Hbefore x (or_introl eq_refl)). apply IH.
    intros y Hy. apply Hbefore. now right. }
  rewrite (show_selected to_datetime df cd p ps filter_values r _ Hp E).
  symmetry. apply (show_selected to_datetime [r] cd p ps [] r [] Hp).
  unfold select_eq, filter_df, filter_columns.
  cbn [combine filter_loop filter]. now rewrite Hr.
Qed.

(** A click on the marker of a row that passes the filters finds a row:
    when the payload carries the row's address, which is not empty, the
    callback returns neither "No data for this locker." nor the click
    prompt. *)
Theorem show_timeline_chart_finds_marker (cd : ClickData) (p : Point) (ps : list Point)
    (filter_values : list pyvalue) (r : Row) (address : string) :
  points cd = Some (p :: ps) ->
  hovertext p = Some address ->
  address <> "" ->
  In r (filter_df df filter_values) ->
  getitem r Address = Str address ->
  show_timeline_chart to_datetime df (Some cd) filter_values <> Return no_data
  /\ show_timeline_chart to_datetime df (Some cd) filter_values <> Return click_prompt.
Proof.
  intros Hp Hhover Hne Hin Haddr.
  assert (or_ (hovertext p) (point_Address p) = Some address) as Hor.
  { unfold or_, truthy. rewrite Hhover.
    apply String.eqb_neq in Hne. now rewrite Hne. }
  destruct (select_eq Address (or_ (hovertext p) (point_Address p))
              (filter_df df filter_values)) as [|r' rest] eqn:E.
  - exfalso.
    assert (In r (select_eq Address (or_ (hovertext p) (point_Address p))
                    (filter_df df filter_values))) as Hsel.
    { unfold select_eq. apply filter_In. split; [exact Hin|].
      rewrite Hor, Haddr. simpl. apply String.eqb_refl. }
    rewrite E in Hsel. exact Hsel.
  - rewrite (show_selected to_datetime df cd p ps filter_values r' rest Hp E).
    destruct (collect to_datetime timeline_points r' []) as [evs|err]; cbn [bind].
    + destruct (List.length evs <? 2)%nat; [split; discriminate|].
      destruct (sort_by_date evs); split; discriminate.
    + split; discriminate.
Qed.

(** Of the click payload, the callback reads the first point only, and
    of that point the key [hovertext] when it holds a non-empty text;
    the key [Address] is read only when [hovertext] is missing or
    empty. *)
Theorem show_timeline_chart_reads_hovertext (p : Point) (ps : list Point)
    (filter_values : list pyvalue) :
  show_timeline_chart to_datetime df (Some {| points := Some (p :: ps) |}) filter_values
  = show_timeline_chart to_datetime df (Some {| points := Some [p] |}) filter_values
  /\ (forall address other,
        hovertext p = Some address ->
        address <> "" ->
        show_timeline_chart to_datetime df (Some {| points := Some [p] |}) filter_values
        = show_timeline_chart to_datetime df
            (Some {| points := Some [{| hovertext := Some address;
                                        point_Address := other |}] |})
            filter_values)
  /\ (hovertext p = None \/ hovertext p = Some "" ->
      show_timeline_chart to_datetime df (Some {| points := Some [p] |}) filter_values
      = show_timeline_chart to_datetime df
          (Some {| points := Some [{| hovertext := point_Address p;
                                      point_Address := point_Address p |}] |})
          filter_values).
Proof.
  split; [reflexivity|]. split.
  - intros address other Hhover Hne.
    unfold show_timeline_chart; cbn [points hovertext point_Address].
    rewrite Hhover. unfold or_, truthy.
    apply String.eqb_neq in Hne. now rewrite Hne.
  - intros H.
    unfold show_timeline_chart; cbn [points hovertext point_Address].
    replace (or_ (hovertext p) (point_Address p)) with (point_Address p)
      by (destruct H as [-> | ->]; reflexivity).
    replace (or_ (point_Address p) (point_Address p)) with (point_Address p)
      by (unfold or_; destruct (truthy (point_Address p)); reflexivity).
    reflexivity.
Qed.

End Outcomes.

(** ** Timeline renderer: ties and dates already in order *)

(** On comparable dates the sort of the chart is stable: events that
    fall on the same date keep the order Delivery, Receive, Withdraw,
    Expire in which they were collected, and when the dates of the row
    are already in ascending order the chart lists the events in exactly
    that order. *)
Theorem show_timeline_chart_ties (to_datetime : string -> option Timestamp)
    (df : DataFrame) (cd : ClickData) (p : Point) (ps : list Point)
    (filter_values : list pyvalue) (r : Row) (rest : DataFrame) :
  points cd = Some (p :: ps) ->
  select_eq Address (or_ (hovertext p) (point_Address p))
    (filter_df df filter_values) = r :: rest ->
  parseable to_datetime r timeline_points ->
  (2 <= List.length (present r timeline_points))%nat ->
  comparable (map snd (events to_datetime r timeline_points)) ->
  exists timeline_data,
    show_timeline_chart to_datetime df (Some cd) filter_values
    = Return (timeline_chart r timeline_data)
    /\ (forall t,
          filter (fun e => (instant (snd e) =? t)%Z) timeline_data
          = filter (fun e => (instant (snd e) =? t)%Z)
              (events to_datetime r timeline_points))
    /\ (Sorted date_le (events to_datetime r timeline_points) ->
        timeline_data = events to_datetime r timeline_points).
Proof.
  intros Hp E Hparse Hmany Hcomp.
  destruct (sort_by_date_comparable (events to_datetime r timeline_points) Hcomp)
    as (out & Hout & _ & _ & Hstable & Hid).
  exists out.
  split; [|split; [exact Hstable | exact Hid]].
  rewrite (show_selected to_datetime df cd p ps filter_values r rest Hp E).
  rewrite (collect_events to_datetime r timeline_points [] Hparse).
  cbn [bind app].
  rewrite (events_length to_datetime r timeline_points Hparse).
  apply Nat.ltb_ge in Hmany. rewrite Hmany, Hout. reflexivity.
Qed.

(** ** The further properties on the sample table *)

Lemma show_timeline_chart_raises_iff_witness :
  show_timeline_chart Iso.to_datetime Sample.df (Sample.click "4 Pine Ct") Sample.all_filters
  = Raise (DateParseError "next week")
  /\ show_timeline_chart Iso.to_datetime Sample.odd_dates (Sample.click "8 Maple Dr")
       Sample.all_filters
     = Raise (TypeError "Cannot compare tz-naive and tz-aware timestamps").
Proof.
  split.
  - apply (proj2 (proj1 (show_timeline_chart_raises_iff Iso.to_datetime Sample.df
                           (Sample.click "4 Pine Ct") Sample.all_filters
                           (DateParseError "next week")))).
    exists {| points := Some [{| hovertext := Some "4 Pine Ct"; point_Address := None |}] |},
      {| hovertext := Some "4 Pine Ct"; point_Address := None |}, [],
      Sample.pine_ct, [].
    split; [reflexivity|].
    split; [reflexivity|].
    split; [reflexivity|].
    left.
    exists [("Delivery", Delivery_Date)], "Receive", Receive_Date,
      [("Withdraw", Withdraw_Date); ("Expire", Expire_Date)].
    split; [reflexivity|].
    split; [parseable_by_cases|].
    split; [reflexivity|].
    split; reflexivity.
  - apply (proj2 (proj1 (show_timeline_chart_raises_iff Iso.to_datetime Sample.odd_dates
                           (Sample.click "8 Maple Dr") Sample.all_filters
                           (TypeError "Cannot compare tz-naive and tz-aware timestamps")))).
    exists {| points := Some [{| hovertext := Some "8 Maple Dr"; point_Address := None |}] |},
      {| hovertext := Some "8 Maple Dr"; point_Address := None |}, [],
      Sample.maple_dr, [].
    split; [reflexivity|].
    split; [reflexivity|].
    split; [reflexivity|].
    right.
    split; [parseable_by_cases|].
    split; [vm_compute; lia|].
    apply (proj2 (proj2 (show_timeline_chart_raises_iff Iso.to_datetime Sample.odd_dates
                           (Sample.click "8 Maple Dr") Sample.all_filters
                           (TypeError "Cannot compare tz-naive and tz-aware timestamps")))).
    + vm_compute. intros [H | [H | []]]; discriminate H.
    + exists (Naive 1709251200000000000). split; [vm_compute; auto | exact I].
    + exists (Aware 1709596800000000000). split; [vm_compute; auto | exact I].
Defined.

Lemma show_timeline_chart_shape_witness :
  show_timeline_chart Iso.to_datetime Sample.df (Sample.click "2 Oak Ave") Sample.all_filters
  = Return (Div [H4 (Str "2 Oak Ave");
                 Graph {| Step := ["Delivery"; "Withdraw"; "Receive"; "Expire"];
                          Date := [Naive 1709251200000000000; Naive 1709510400000000000;
                                   Naive 1709942400000000000; Naive 1710028800000000000] |}])
  /\ NoDup ["Delivery"; "Withdraw"; "Receive"; "Expire"]
  /\ (~ In NaT [Naive 1709251200000000000; Naive 1709510400000000000;
                Naive 1709942400000000000; Naive 1710028800000000000]
      -> StronglySorted timestamp_le
           [Naive 1709251200000000000; Naive 1709510400000000000;
            Naive 1709942400000000000; Naive 1710028800000000000]).
Proof.
  assert (show_timeline_chart Iso.to_datetime Sample.df (Sample.click "2 Oak Ave")
            Sample.all_filters
          = Return (Div [H4 (Str "2 Oak Ave");
                         Graph {| Step := ["Delivery"; "Withdraw"; "Receive"; "Expire"];
                                  Date := [Naive 1709251200000000000;
                                           Naive 1709510400000000000;
                                           Naive 1709942400000000000;
                                           Naive 1710028800000000000] |}]))
    as H by reflexivity.
  split; [exact H|].
  destruct (show_timeline_chart_shape Iso.to_datetime Sample.df _ _ _ _ H)
    as (_ & _ & Hnodup & _ & Hsorted).
  split; [exact Hnodup | exact Hsorted].
Defined.

Lemma show_timeline_chart_first_row_witness :
  (filter_df (Sample.df ++ [Sample.ash_ln]) Sample.all_filters
   = [Sample.main_st] ++ Sample.oak_ave :: [Sample.elm_rd; Sample.pine_ct; Sample.ash_ln]
   /\ getitem Sample.ash_ln Address = getitem Sample.oak_ave Address)
  /\ show_timeline_chart Iso.to_datetime (Sample.df ++ [Sample.ash_ln])
       (Sample.click "2 Oak Ave") Sample.all_filters
     = show_timeline_chart Iso.to_datetime [Sample.oak_ave] (Sample.click "2 Oak Ave") [].
Proof.
  split; [split; reflexivity|].
  apply (show_timeline_chart_first_row Iso.to_datetime (Sample.df ++ [Sample.ash_ln])
           {| points := Some [{| hovertext := Some "2 Oak Ave"; point_Address := None |}] |}
           {| hovertext := Some "2 Oak Ave"; point_Address := None |} []
           Sample.all_filters [Sample.main_st]
           [Sample.elm_rd; Sample.pine_ct; Sample.ash_ln] Sample.oak_ave).
  - reflexivity.
  - reflexivity.
  - intros x [<- | []]. reflexivity.
  - reflexivity.
Defined.

Lemma show_timeline_chart_finds_marker_witness :
  (In Sample.elm_rd (filter_df Sample.df Sample.queens_only)
   /\ getitem Sample.elm_rd Address = Str "3 Elm Rd"
   /\ "3 Elm Rd" <> "")
  /\ show_timeline_chart Iso.to_datetime Sample.df (Sample.click "3 Elm Rd")
       Sample.queens_only <> Return no_data.
Proof.
  assert (In Sample.elm_rd (filter_df Sample.df Sample.queens_only)) as Hin
    by (simpl; auto).
  assert ("3 Elm Rd" <> "") as Hne by discriminate.
  split; [split; [exact Hin | split; [reflexivity | exact Hne]]|].
  exact (proj1 (show_timeline_chart_finds_marker Iso.to_datetime Sample.df
                  {| points := Some [{| hovertext := Some "3 Elm Rd";
                                        point_Address := None |}] |}
                  {| hovertext := Some "3 Elm Rd"; point_Address := None |} []
                  Sample.queens_only Sample.elm_rd "3 Elm Rd"
                  eq_refl eq_refl Hne Hin eq_refl)).
Defined.

Lemma show_timeline_chart_reads_hovertext_witness :
  show_timeline_chart Iso.to_datetime Sample.df
    (Some {| points := Some [{| hovertext := Some "2 Oak Ave";
                                point_Address := Some "1 Main St" |}] |})
    Sample.all_filters
  = show_timeline_chart Iso.to_datetime Sample.df
      (Some {| points := Some [{| hovertext := Some "2 Oak Ave";
                                  point_Address := None |}] |})
      Sample.all_filters
  /\ show_timeline_chart Iso.to_datetime Sample.df
       (Some {| points := Some [{| hovertext := Some "";
                                   point_Address := Some "1 Main St" |}] |})
       Sample.all_filters
     = show_timeline_chart Iso.to_datetime Sample.df
         (Some {| points := Some [{| hovertext := Some "1 Main St";
                                     point_Address := Some "1 Main St" |}] |})
         Sample.all_filters.
Proof.
  split.
  - assert ("2 Oak Ave" <> "") as Hne by discriminate.
    exact (proj1 (proj2 (show_timeline_chart_reads_hovertext Iso.to_datetime Sample.df
                           {| hovertext := Some "2 Oak Ave";
                              point_Address := Some "1 Main St" |} []
                           Sample.all_filters))
             "2 Oak Ave" None eq_refl Hne).
  - exact (proj2 (proj2 (show_timeline_chart_reads_hovertext Iso.to_datetime Sample.df
                           {| hovertext := Some "";
                              point_Address := Some "1 Main St" |} []
                           Sample.all_filters))
             (or_intror eq_refl)).
Defined.

Lemma show_timeline_chart_ties_witness :
  (select_eq Address (or_ (Some "1 Main St") None) (filter_df Sample.df Sample.all_filters)
   = [Sample.main_st]
   /\ parseable Iso.to_datetime Sample.main_st timeline_points
   /\ (2 <= List.length (present Sample.main_st timeline_points))%nat
   /\ comparable (map snd (events Iso.to_datetime Sample.main_st timeline_points)))
  /\ exists timeline_data,
       show_timeline_chart Iso.to_datetime Sample.df (Sample.click "1 Main St")
         Sample.all_filters
       = Return (timeline_chart Sample.main_st timeline_data)
       /\ (forall t,
             filter (fun e => (instant (snd e) =? t)%Z) timeline_data
             = filter (fun e => (instant (snd e) =? t)%Z)
                 (events Iso.to_datetime Sample.main_st timeline_points))
       /\ (Sorted date_le (events Iso.to_datetime Sample.main_st timeline_points) ->
           timeline_data = events Iso.to_datetime Sample.main_st timeline_points).
Proof.
  assert (2 <= List.length (present Sample.main_st timeline_points))%nat as Hmany
    by (vm_compute; lia).
  assert (comparable (map snd (events Iso.to_datetime Sample.main_st timeline_points)))
    as Hcomp by (left; vm_compute; repeat constructor).
  split.
  - split; [reflexivity|]. split; [exact main_st_parseable|].
    split; [exact Hmany | exact Hcomp].
  - exact (show_timeline_chart_ties Iso.to_datetime Sample.df
             {| points := Some [{| hovertext := Some "1 Main St"; point_Address := None |}] |}
             {| hovertext := Some "1 Main St"; point_Address := None |} []
             Sample.all_filters Sample.main_st [] eq_refl eq_refl main_st_parseable
             Hmany Hcomp).
Defined.
